(** * stddraw: a shallow embedding of [stdlib/stddraw.py]

    The module keeps its configuration in module-level globals and draws by
    calling the pygame toolkit.  Here the globals are the fields of a record
    [State], every function of the module is a computation in a small
    state-and-exception monad [M], and the toolkit is a log of the calls
    issued to it together with the inputs it hands back (event batches,
    file-dialog replies).

    Numbers.  In the main embedding Python floats are taken as exact
    rationals ([Q]): [float(x)] of a number is that number, comparison and
    the four operations are the rational ones, and a division by zero raises
    [ZeroDivisionError].  Equality of computed numbers is therefore [Qeq]
    ([==]), and what is proved of computed values is proved of this exact
    arithmetic.  Rounding, infinities and NaN are in the second embedding,
    [IEEE], which repeats over binary64 floats the functions that behave
    differently there; the last part of the file evaluates them where the
    two embeddings part.

    The toolkit.  A drawing call is logged and taken to succeed; what
    pygame itself may refuse is modelled where the module's code reacts to
    it or a property turns on it ([pygame.error] from [image.save], a
    polygon of fewer than three points, the 16-bit coordinates of
    [gfxdraw.pixel] in [IEEE]). *)

From Stdlib Require Import QArith Qabs Qround Lqa ZArith Lia List Ascii String
  Bool.
From Stdlib Require Floats.
Import ListNotations.
Open Scope Q_scope.

(** ** Python values *)

Definition float (x : Q) : Q := x.

(** [a < b] on numbers; [a <= b] is [Qle_bool a b] and [a >= b] is
    [Qle_bool b a]. *)
Definition Qltb (a b : Q) : bool := negb (Qle_bool b a).

(** Python 3 [round(x)] with one argument: nearest integer, ties to even. *)
Definition round (x : Q) : Z :=
  let f := Qfloor x in
  let d := x - inject_Z f in
  if Qltb d (1 # 2) then f
  else if Qltb (1 # 2) d then (f + 1)%Z
  else if Z.even f then f else (f + 1)%Z.

Definition int (z : Z) : Z := z.

Inductive exn : Type :=
| Exception (msg : string)
| TypeError
| ZeroDivisionError
| IndexError
| ValueError
| OverflowError
| pygame_error (msg : string)
| SystemExit.

(** What a call does: it returns, it raises, or the bound the model puts on
    the number of loop iterations and recursive calls was reached. *)
Inductive outcome (A : Type) : Type :=
| Returns (a : A)
| Raises (e : exn)
| OutOfFuel.
Arguments Returns {A} a.
Arguments Raises {A} e.
Arguments OutOfFuel {A}.

(** ** The colour module and the toolkit *)

(** Modelled from the spec: [stdlib/color.py] is not among the sources; the
    spec speaks only of a "current pen color".  A [Color] object is taken as
    its three components, read by [get_red], [get_green] and [get_blue] as
    [_pygame_color] does, and [WHITE] and [BLACK] are the two constants the
    module's functions use. *)
Record Color : Type := mkColor { get_red : Z; get_green : Z; get_blue : Z }.
Definition WHITE : Color := mkColor 255 255 255.
Definition BLACK : Color := mkColor 0 0 0.

Inductive pygame_Color : Type := pygame_Color_rgb (r g b : Z).

Record Picture : Type := mkPicture { width : Z; height : Z }.

Definition Rect : Type := (Q * Q * Q * Q)%type.

(** Calls issued to pygame, [time] and [subprocess], in the order issued. *)
Inductive pygame_call : Type :=
| display_set_mode (w h : Q)
| display_set_caption (s : string)
| Surface_new (w h : Q)
| Surface_fill (c : pygame_Color)
| gfxdraw_pixel (x y : Z) (c : pygame_Color)
| draw_ellipse (c : pygame_Color) (r : Rect) (w : Z)
| draw_rect (c : pygame_Color) (r : Rect) (w : Z)
| draw_line (c : pygame_Color) (p0 p1 : Q * Q) (w : Z)
| draw_polygon (c : pygame_Color) (points : list (Q * Q)) (w : Z)
| blit_text (family : string) (size : Z) (s : string) (c : pygame_Color)
            (center : Q * Q)
| blit_picture (pic : Picture) (r : Rect)
| image_save (f : string)
| background_blit
| display_flip
| time_sleep (sec : Q)
| font_init
| subprocess_Popen (args : list string).

Inductive Event : Type :=
| QUIT
| KEYDOWN (unicode : string)
| MOUSEBUTTONUP (button : Z) (pos : Z * Z)
| MOUSEBUTTONDOWN (button : Z) (pos : Z * Z)
| OTHEREVENT.

(** ** Default sizes and values *)

Definition _BORDER : Q := 0.
Definition _DEFAULT_XMIN : Q := 0.
Definition _DEFAULT_XMAX : Q := 1.
Definition _DEFAULT_YMIN : Q := 0.
Definition _DEFAULT_YMAX : Q := 1.
Definition _DEFAULT_CANVAS_SIZE : Q := 512.
Definition _DEFAULT_PEN_RADIUS : Q := 5 # 1000.
Definition _DEFAULT_PEN_COLOR : Color := BLACK.
Definition _DEFAULT_FONT_FAMILY : string := "Helvetica".
Definition _DEFAULT_FONT_SIZE : Z := 12.

(** ** The module's globals *)

Record State : Type := mkState {
  _xmin : option Q;
  _ymin : option Q;
  _xmax : option Q;
  _ymax : option Q;
  _fontFamily : string;
  _fontSize : Z;
  _canvasWidth : Q;
  _canvasHeight : Q;
  _pen_radius : option Q;
  _penColor : Color;
  _keysTyped : list string;
  _windowCreated : bool;
  _mousePressed : bool;
  _mousePos : option (Z * Z);
  (* the toolkit: calls issued so far, the batches that the coming calls of
     pygame.event.get() return, the replies of the coming file dialogs *)
  pygame_log : list pygame_call;
  pygame_events : list (list Event);
  dialog_replies : list string;
  (* the environment: how the coming calls of pygame.image.save end (None:
     the file is written; Some msg: pygame.error(msg)), sys.executable, and
     os.path.realpath(__file__) *)
  image_save_errors : list (option string);
  sys_executable : string;
  stddrawPath : string
}.

(** The globals as the top of the module leaves them, before the three
    initialising calls at its end.  The environment starts as one in which
    every save works; [reachable] below lets it be any other. *)
Definition module_globals (events : list (list Event)) (replies : list string)
  : State :=
  {| _xmin := None; _ymin := None; _xmax := None; _ymax := None;
     _fontFamily := _DEFAULT_FONT_FAMILY; _fontSize := _DEFAULT_FONT_SIZE;
     _canvasWidth := float _DEFAULT_CANVAS_SIZE;
     _canvasHeight := float _DEFAULT_CANVAS_SIZE;
     _pen_radius := None; _penColor := _DEFAULT_PEN_COLOR;
     _keysTyped := []; _windowCreated := false;
     _mousePressed := false; _mousePos := None;
     pygame_log := []; pygame_events := events; dialog_replies := replies;
     image_save_errors := []; sys_executable := "python";
     stddrawPath := "stddraw.py" |}.

Module Assign.
Definition xmin v s := mkState v (_ymin s) (_xmax s) (_ymax s) (_fontFamily s) (_fontSize s) (_canvasWidth s) (_canvasHeight s) (_pen_radius s) (_penColor s) (_keysTyped s) (_windowCreated s) (_mousePressed s) (_mousePos s) (pygame_log s) (pygame_events s) (dialog_replies s) (image_save_errors s) (sys_executable s) (stddrawPath s).
Definition ymin v s := mkState (_xmin s) v (_xmax s) (_ymax s) (_fontFamily s) (_fontSize s) (_canvasWidth s) (_canvasHeight s) (_pen_radius s) (_penColor s) (_keysTyped s) (_windowCreated s) (_mousePressed s) (_mousePos s) (pygame_log s) (pygame_events s) (dialog_replies s) (image_save_errors s) (sys_executable s) (stddrawPath s).
Definition xmax v s := mkState (_xmin s) (_ymin s) v (_ymax s) (_fontFamily s) (_fontSize s) (_canvasWidth s) (_canvasHeight s) (_pen_radius s) (_penColor s) (_keysTyped s) (_windowCreated s) (_mousePressed s) (_mousePos s) (pygame_log s) (pygame_events s) (dialog_replies s) (image_save_errors s) (sys_executable s) (stddrawPath s).
Definition ymax v s := mkState (_xmin s) (_ymin s) (_xmax s) v (_fontFamily s) (_fontSize s) (_canvasWidth s) (_canvasHeight s) (_pen_radius s) (_penColor s) (_keysTyped s) (_windowCreated s) (_mousePressed s) (_mousePos s) (pygame_log s) (pygame_events s) (dialog_replies s) (image_save_errors s) (sys_executable s) (stddrawPath s).
Definition fontFamily v s := mkState (_xmin s) (_ymin s) (_xmax s) (_ymax s) v (_fontSize s) (_canvasWidth s) (_canvasHeight s) (_pen_radius s) (_penColor s) (_keysTyped s) (_windowCreated s) (_mousePressed s) (_mousePos s) (pygame_log s) (pygame_events s) (dialog_replies s) (image_save_errors s) (sys_executable s) (stddrawPath s).
Definition fontSize v s := mkState (_xmin s) (_ymin s) (_xmax s) (_ymax s) (_fontFamily s) v (_canvasWidth s) (_canvasHeight s) (_pen_radius s) (_penColor s) (_keysTyped s) (_windowCreated s) (_mousePressed s) (_mousePos s) (pygame_log s) (pygame_events s) (dialog_replies s) (image_save_errors s) (sys_executable s) (stddrawPath s).
Definition canvasWidth v s := mkState (_xmin s) (_ymin s) (_xmax s) (_ymax s) (_fontFamily s) (_fontSize s) v (_canvasHeight s) (_pen_radius s) (_penColor s) (_keysTyped s) (_windowCreated s) (_mousePressed s) (_mousePos s) (pygame_log s) (pygame_events s) (dialog_replies s) (image_save_errors s) (sys_executable s) (stddrawPath s).
Definition canvasHeight v s := mkState (_xmin s) (_ymin s) (_xmax s) (_ymax s) (_fontFamily s) (_fontSize s) (_canvasWidth s) v (_pen_radius s) (_penColor s) (_keysTyped s) (_windowCreated s) (_mousePressed s) (_mousePos s) (pygame_log s) (pygame_events s) (dialog_replies s) (image_save_errors s) (sys_executable s) (stddrawPath s).
Definition pen_radius v s := mkState (_xmin s) (_ymin s) (_xmax s) (_ymax s) (_fontFamily s) (_fontSize s) (_canvasWidth s) (_canvasHeight s) v (_penColor s) (_keysTyped s) (_windowCreated s) (_mousePressed s) (_mousePos s) (pygame_log s) (pygame_events s) (dialog_replies s) (image_save_errors s) (sys_executable s) (stddrawPath s).
Definition penColor v s := mkState (_xmin s) (_ymin s) (_xmax s) (_ymax s) (_fontFamily s) (_fontSize s) (_canvasWidth s) (_canvasHeight s) (_pen_radius s) v (_keysTyped s) (_windowCreated s) (_mousePressed s) (_mousePos s) (pygame_log s) (pygame_events s) (dialog_replies s) (image_save_errors s) (sys_executable s) (stddrawPath s).
Definition keysTyped v s := mkState (_xmin s) (_ymin s) (_xmax s) (_ymax s) (_fontFamily s) (_fontSize s) (_canvasWidth s) (_canvasHeight s) (_pen_radius s) (_penColor s) v (_windowCreated s) (_mousePressed s) (_mousePos s) (pygame_log s) (pygame_events s) (dialog_replies s) (image_save_errors s) (sys_executable s) (stddrawPath s).
Definition windowCreated v s := mkState (_xmin s) (_ymin s) (_xmax s) (_ymax s) (_fontFamily s) (_fontSize s) (_canvasWidth s) (_canvasHeight s) (_pen_radius s) (_penColor s) (_keysTyped s) v (_mousePressed s) (_mousePos s) (pygame_log s) (pygame_events s) (dialog_replies s) (image_save_errors s) (sys_executable s) (stddrawPath s).
Definition mousePressed v s := mkState (_xmin s) (_ymin s) (_xmax s) (_ymax s) (_fontFamily s) (_fontSize s) (_canvasWidth s) (_canvasHeight s) (_pen_radius s) (_penColor s) (_keysTyped s) (_windowCreated s) v (_mousePos s) (pygame_log s) (pygame_events s) (dialog_replies s) (image_save_errors s) (sys_executable s) (stddrawPath s).
Definition mousePos v s := mkState (_xmin s) (_ymin s) (_xmax s) (_ymax s) (_fontFamily s) (_fontSize s) (_canvasWidth s) (_canvasHeight s) (_pen_radius s) (_penColor s) (_keysTyped s) (_windowCreated s) (_mousePressed s) v (pygame_log s) (pygame_events s) (dialog_replies s) (image_save_errors s) (sys_executable s) (stddrawPath s).
Definition log v s := mkState (_xmin s) (_ymin s) (_xmax s) (_ymax s) (_fontFamily s) (_fontSize s) (_canvasWidth s) (_canvasHeight s) (_pen_radius s) (_penColor s) (_keysTyped s) (_windowCreated s) (_mousePressed s) (_mousePos s) v (pygame_events s) (dialog_replies s) (image_save_errors s) (sys_executable s) (stddrawPath s).
Definition events v s := mkState (_xmin s) (_ymin s) (_xmax s) (_ymax s) (_fontFamily s) (_fontSize s) (_canvasWidth s) (_canvasHeight s) (_pen_radius s) (_penColor s) (_keysTyped s) (_windowCreated s) (_mousePressed s) (_mousePos s) (pygame_log s) v (dialog_replies s) (image_save_errors s) (sys_executable s) (stddrawPath s).
Definition replies v s := mkState (_xmin s) (_ymin s) (_xmax s) (_ymax s) (_fontFamily s) (_fontSize s) (_canvasWidth s) (_canvasHeight s) (_pen_radius s) (_penColor s) (_keysTyped s) (_windowCreated s) (_mousePressed s) (_mousePos s) (pygame_log s) (pygame_events s) v (image_save_errors s) (sys_executable s) (stddrawPath s).
Definition save_errors v s := mkState (_xmin s) (_ymin s) (_xmax s) (_ymax s) (_fontFamily s) (_fontSize s) (_canvasWidth s) (_canvasHeight s) (_pen_radius s) (_penColor s) (_keysTyped s) (_windowCreated s) (_mousePressed s) (_mousePos s) (pygame_log s) (pygame_events s) (dialog_replies s) v (sys_executable s) (stddrawPath s).
Definition environment (errors : list (option string)) (exe path : string) s :=
  mkState (_xmin s) (_ymin s) (_xmax s) (_ymax s) (_fontFamily s) (_fontSize s) (_canvasWidth s) (_canvasHeight s) (_pen_radius s) (_penColor s) (_keysTyped s) (_windowCreated s) (_mousePressed s) (_mousePos s) (pygame_log s) (pygame_events s) (dialog_replies s) errors exe path.
End Assign.

(** ** The monad of module functions *)

Definition M (A : Type) : Type := State -> outcome A * State.

Definition ret {A} (a : A) : M A := fun s => (Returns a, s).

Definition bind {A B} (m : M A) (k : A -> M B) : M B :=
  fun s =>
    match m s with
    | (Returns a, s') => k a s'
    | (Raises e, s') => (Raises e, s')
    | (OutOfFuel, s') => (OutOfFuel, s')
    end.

Notation "x <- m ;; k" := (bind m (fun x => k))
  (at level 61, m at next level, right associativity).
Notation "m ;; k" := (bind m (fun _ => k))
  (at level 61, right associativity).

Definition raise {A} (e : exn) : M A := fun s => (Raises e, s).
Definition out_of_fuel {A} : M A := fun s => (OutOfFuel, s).

(** Reading a global, and reading one that must hold a number: arithmetic
    on [None] is a [TypeError]. *)
Definition read {A} (g : State -> A) : M A := fun s => (Returns (g s), s).
Definition number (g : State -> option Q) : M Q :=
  fun s => match g s with
           | Some v => (Returns v, s)
           | None => (Raises TypeError, s)
           end.
Definition assign {A} (set : A -> State -> State) (v : A) : M unit :=
  fun s => (Returns tt, set v s).

(** A call to the toolkit: logged, and taken to succeed. *)
Definition pygame (c : pygame_call) : M unit :=
  fun s => (Returns tt, Assign.log (pygame_log s ++ [c]) s).

Definition div (a b : Q) : M Q :=
  if Qeq_bool b 0 then raise ZeroDivisionError else ret (a / b).

Definition _pygame_color (c : Color) : pygame_Color :=
  let r := get_red c in
  let g := get_green c in
  let b := get_blue c in
  pygame_Color_rgb r g b.

(** ** Scaling *)

Definition _scale_x (x : Q) : M Q :=
  w <- read _canvasWidth ;; xmin <- number _xmin ;; xmax <- number _xmax ;;
  div (w * (x - xmin)) (xmax - xmin).

Definition _scale_y (y : Q) : M Q :=
  h <- read _canvasHeight ;; ymax <- number _ymax ;; ymin <- number _ymin ;;
  div (h * (ymax - y)) (ymax - ymin).

Definition _factor_x (w : Q) : M Q :=
  cw <- read _canvasWidth ;; xmax <- number _xmax ;; xmin <- number _xmin ;;
  div (w * cw) (Qabs (xmax - xmin)).

Definition _factor_y (h : Q) : M Q :=
  ch <- read _canvasHeight ;; ymax <- number _ymax ;; ymin <- number _ymin ;;
  div (h * ch) (Qabs (ymax - ymin)).

Definition _user_x (x : Q) : M Q :=
  xmin <- number _xmin ;; xmax <- number _xmax ;; w <- read _canvasWidth ;;
  q <- div (x * (xmax - xmin)) w ;;
  ret (xmin + q).

Definition _user_y (y : Q) : M Q :=
  ymax <- number _ymax ;; ymin <- number _ymin ;; h <- read _canvasHeight ;;
  q <- div (y * (ymax - ymin)) h ;;
  ret (ymax - q).

(** ** Configuration

    A call that leaves out an argument passes its default, one of the
    constants above. *)

Definition set_canvas_size (w h : Q) : M unit :=
  created <- read _windowCreated ;;
  if created : bool then raise (Exception "The stddraw window already was created")
  else if Qltb w 1 || Qltb h 1
  then raise (Exception "width and height must be positive")
  else
    assign Assign.canvasWidth w ;;
    assign Assign.canvasHeight h ;;
    pygame (display_set_mode w h) ;;
    pygame (display_set_caption "stddraw window (r-click to save)") ;;
    pygame (Surface_new w h) ;;
    pygame (Surface_fill (_pygame_color WHITE)) ;;
    assign Assign.windowCreated true.

Definition set_xscale (min max : Q) : M unit :=
  let min := float min in
  let max := float max in
  if Qle_bool max min then raise (Exception "min must be less than max")
  else
    let size := max - min in
    assign Assign.xmin (Some (min - _BORDER * size)) ;;
    assign Assign.xmax (Some (max + _BORDER * size)).

Definition set_yscale (min max : Q) : M unit :=
  let min := float min in
  let max := float max in
  if Qle_bool max min then raise (Exception "min must be less than max")
  else
    let size := max - min in
    assign Assign.ymin (Some (min - _BORDER * size)) ;;
    assign Assign.ymax (Some (max + _BORDER * size)).

Definition set_pen_radius (r : Q) : M unit :=
  let r := float r in
  if Qltb r 0 then raise (Exception "Argument to setPenRadius() must be non-neg")
  else assign Assign.pen_radius (Some (r * float _DEFAULT_CANVAS_SIZE)).

Definition set_pen_color (c : Color) : M unit := assign Assign.penColor c.
Definition set_font_family (f : string) : M unit := assign Assign.fontFamily f.
Definition set_font_size (s : Z) : M unit := assign Assign.fontSize s.

Definition _make_sure_window_created : M unit :=
  created <- read _windowCreated ;;
  if created : bool then ret tt
  else
    set_canvas_size _DEFAULT_CANVAS_SIZE _DEFAULT_CANVAS_SIZE ;;
    assign Assign.windowCreated true.

(** ** Drawing on the background canvas *)

Definition _pixel (x y : Q) : M unit :=
  _make_sure_window_created ;;
  xs <- _scale_x x ;;
  xy <- _scale_y y ;;
  c <- read _penColor ;;
  pygame (gfxdraw_pixel (int (round xs)) (int (round xy)) (_pygame_color c)).

Definition point (x y : Q) : M unit :=
  _make_sure_window_created ;;
  let x := float x in
  let y := float y in
  pr <- number _pen_radius ;;
  if Qle_bool pr 1 then _pixel x y
  else
    xs <- _scale_x x ;;
    ys <- _scale_y y ;;
    c <- read _penColor ;;
    pygame (draw_ellipse (_pygame_color c)
                         (xs - pr, ys - pr, pr * 2, pr * 2) 0).

Definition circle (x y r : Q) : M unit :=
  _make_sure_window_created ;;
  let x := float x in
  let y := float y in
  let r := float r in
  ws <- _factor_x (2 * r) ;;
  hs <- _factor_y (2 * r) ;;
  if Qle_bool ws 1 && Qle_bool hs 1 then _pixel x y
  else
    xs <- _scale_x x ;;
    ys <- _scale_y y ;;
    c <- read _penColor ;;
    pr <- number _pen_radius ;;
    pygame (draw_ellipse (_pygame_color c)
                         (xs - ws / 2, ys - hs / 2, ws, hs) (int (round pr))).

Definition filledCircle (x y r : Q) : M unit :=
  _make_sure_window_created ;;
  let x := float x in
  let y := float y in
  let r := float r in
  ws <- _factor_x (2 * r) ;;
  hs <- _factor_y (2 * r) ;;
  if Qle_bool ws 1 && Qle_bool hs 1 then _pixel x y
  else
    xs <- _scale_x x ;;
    ys <- _scale_y y ;;
    c <- read _penColor ;;
    pygame (draw_ellipse (_pygame_color c)
                         (xs - ws / 2, ys - hs / 2, ws, hs) 0).

Definition rectangle (x y w h : Q) : M unit :=
  _make_sure_window_created ;;
  let x := float x in
  let y := float y in
  let w := float w in
  let h := float h in
  ws <- _factor_x w ;;
  hs <- _factor_y h ;;
  if Qle_bool ws 1 && Qle_bool hs 1 then _pixel x y
  else
    xs <- _scale_x x ;;
    ys <- _scale_y y ;;
    c <- read _penColor ;;
    pr <- number _pen_radius ;;
    pygame (draw_rect (_pygame_color c) (xs, ys - hs, ws, hs) (int (round pr))).

Definition filledRectangle (x y w h : Q) : M unit :=
  _make_sure_window_created ;;
  let x := float x in
  let y := float y in
  let w := float w in
  let h := float h in
  ws <- _factor_x w ;;
  hs <- _factor_y h ;;
  if Qle_bool ws 1 && Qle_bool hs 1 then _pixel x y
  else
    xs <- _scale_x x ;;
    ys <- _scale_y y ;;
    c <- read _penColor ;;
    pygame (draw_rect (_pygame_color c) (xs, ys - hs, ws, hs) 0).

(** The recursion of [_thick_line] is bounded by [fuel], the depth of
    recursive calls allowed below this one. *)
Fixpoint _thick_line (fuel : nat) (x0 y0 x1 y1 r : Q) : M unit :=
  xs0 <- _scale_x x0 ;;
  ys0 <- _scale_y y0 ;;
  xs1 <- _scale_x x1 ;;
  ys1 <- _scale_y y1 ;;
  if Qltb (Qabs (xs0 - xs1)) 1 && Qltb (Qabs (ys0 - ys1)) 1
  then filledCircle x0 y0 r
  else
    match fuel with
    | O => out_of_fuel
    | S fuel' =>
        let xMid := (x0 + x1) / 2 in
        let yMid := (y0 + y1) / 2 in
        _thick_line fuel' x0 y0 xMid yMid r ;;
        _thick_line fuel' xMid yMid x1 y1 r
    end.

Definition THICK_LINE_CUTOFF : Q := 3.

Definition line (fuel : nat) (x0 y0 x1 y1 : Q) : M unit :=
  _make_sure_window_created ;;
  let x0 := float x0 in
  let y0 := float y0 in
  let x1 := float x1 in
  let y1 := float y1 in
  pr <- number _pen_radius ;;
  let lineWidth := pr * 2 in
  let lineWidth := if Qeq_bool lineWidth 0 then 1 else lineWidth in
  if Qltb lineWidth THICK_LINE_CUTOFF then
    x0s <- _scale_x x0 ;;
    y0s <- _scale_y y0 ;;
    x1s <- _scale_x x1 ;;
    y1s <- _scale_y y1 ;;
    c <- read _penColor ;;
    pygame (draw_line (_pygame_color c) (x0s, y0s) (x1s, y1s)
                      (int (round lineWidth)))
  else
    _thick_line fuel x0 y0 x1 y1 (pr / _DEFAULT_CANVAS_SIZE).

Definition square (x y r : Q) : M unit :=
  _make_sure_window_created ;;
  rectangle (x - r) (y - r) (2 * r) (2 * r).

Definition filledSquare (x y r : Q) : M unit :=
  _make_sure_window_created ;;
  filledRectangle (x - r) (y - r) (2 * r) (2 * r).

Fixpoint for_each {A B} (f : A -> M B) (l : list A) : M (list B) :=
  match l with
  | [] => ret []
  | a :: l' => b <- f a ;; bs <- for_each f l' ;; ret (b :: bs)
  end.

(** [points.append((xScaled[i], yScaled[i]))] for [i] in [range(len(x))]:
    [yScaled[i]] is an [IndexError] when [y] is the shorter list. *)
Fixpoint pair_points (xScaled yScaled : list Q) : M (list (Q * Q)) :=
  match xScaled with
  | [] => ret []
  | xi :: xs' =>
      match yScaled with
      | [] => raise IndexError
      | yi :: ys' => ps <- pair_points xs' ys' ;; ret ((xi, yi) :: ps)
      end
  end.

Definition first_point (xScaled yScaled : list Q) : M (Q * Q) :=
  match xScaled, yScaled with
  | x0 :: _, y0 :: _ => ret (x0, y0)
  | _, _ => raise IndexError
  end.

(** [pygame.draw.polygon] refuses fewer than three points. *)
Definition pygame_draw_polygon (c : pygame_Color) (points : list (Q * Q))
           (w : Z) : M unit :=
  if (List.length points <? 3)%nat then raise ValueError
  else pygame (draw_polygon c points w).

Definition polygon (x y : list Q) : M unit :=
  _make_sure_window_created ;;
  xScaled <- for_each (fun xi => _scale_x (float xi)) x ;;
  yScaled <- for_each (fun yi => _scale_y (float yi)) y ;;
  points <- pair_points xScaled yScaled ;;
  p0 <- first_point xScaled yScaled ;;
  c <- read _penColor ;;
  pr <- number _pen_radius ;;
  pygame_draw_polygon (_pygame_color c) (points ++ [p0]) (int (round pr)).

Definition filledPolygon (x y : list Q) : M unit :=
  _make_sure_window_created ;;
  xScaled <- for_each (fun xi => _scale_x (float xi)) x ;;
  yScaled <- for_each (fun yi => _scale_y (float yi)) y ;;
  points <- pair_points xScaled yScaled ;;
  p0 <- first_point xScaled yScaled ;;
  c <- read _penColor ;;
  pygame_draw_polygon (_pygame_color c) (points ++ [p0]) 0.

Definition text (x y : Q) (s : string) : M unit :=
  _make_sure_window_created ;;
  let x := float x in
  let y := float y in
  xs <- _scale_x x ;;
  ys <- _scale_y y ;;
  family <- read _fontFamily ;;
  size <- read _fontSize ;;
  c <- read _penColor ;;
  pygame (blit_text family size s (_pygame_color c) (xs, ys)).

Definition picture (pic : Picture) (x y : option Q) : M unit :=
  _make_sure_window_created ;;
  x <- match x with
       | None => xmax <- number _xmax ;; xmin <- number _xmin ;;
                 ret ((xmax + xmin) / 2)
       | Some x => ret x
       end ;;
  y <- match y with
       | None => ymax <- number _ymax ;; ymin <- number _ymin ;;
                 ret ((ymax + ymin) / 2)
       | Some y => ret y
       end ;;
  let x := float x in
  let y := float y in
  xs <- _scale_x x ;;
  ys <- _scale_y y ;;
  let ws := inject_Z (width pic) in
  let hs := inject_Z (height pic) in
  pygame (blit_picture pic (xs - ws / 2, ys - hs / 2, ws, hs)).

Definition clear (c : Color) : M unit :=
  _make_sure_window_created ;;
  pygame (Surface_fill (_pygame_color c)).

(** [pygame.image.save]: logged; it writes the file or raises
    [pygame.error], as the environment has it. *)
Definition pygame_image_save (f : string) : M unit :=
  fun s =>
    let s' := Assign.log (pygame_log s ++ [image_save f]) s in
    match image_save_errors s with
    | [] => (Returns tt, s')
    | None :: rest => (Returns tt, Assign.save_errors rest s')
    | Some msg :: rest => (Raises (pygame_error msg), Assign.save_errors rest s')
    end.

Definition save (f : string) : M unit :=
  _make_sure_window_created ;;
  pygame_image_save f.

(** ** Showing the canvas, events *)

Definition endswith (s suffix : string) : bool :=
  let n := String.length s in
  let m := String.length suffix in
  if (m <=? n)%nat then String.eqb (substring (n - m) m s) suffix else false.

(** The reply of the file-name dialog run in a child process: the standard
    output of the child, stripped. *)
Definition communicate : M string :=
  fun s => match dialog_replies s with
           | [] => (Returns EmptyString, s)
           | r :: rest => (Returns r, Assign.replies rest s)
           end.

(** [try: body except (pygame.error) as e: handler(str(e))]. *)
Definition try_except_pygame_error (body : M unit) (handler : string -> M unit)
  : M unit :=
  fun s =>
    match body s with
    | (Raises (pygame_error msg), s') => handler msg s'
    | result => result
    end.

(** The double-quote character, and the message of the error dialog for a
    name with another suffix: the text between the single quotes of the
    source literal, with its four double quotes. *)
Definition quote : string := String "034"%char EmptyString.

Definition suffix_message : string :=
  ("File name must end with " ++ quote ++ ".jpg" ++ quote ++ " or "
   ++ quote ++ ".png" ++ quote ++ ".")%string.

(** [subprocess.Popen] and [communicate] are taken to succeed. *)
Definition _saveToFile : M unit :=
  _make_sure_window_created ;;
  executable <- read sys_executable ;;
  stddrawPath <- read stddrawPath ;;
  pygame (subprocess_Popen [executable; stddrawPath; "getFileName"%string]) ;;
  fileName <- communicate ;;
  if String.eqb fileName "" then ret tt
  else if negb (endswith fileName ".jpg" || endswith fileName ".png") then
    pygame (subprocess_Popen
              [executable; stddrawPath; "reportFileSaveError"%string;
               suffix_message])
  else
    try_except_pygame_error
      (save fileName ;;
       pygame (subprocess_Popen
                 [executable; stddrawPath; "confirmFileSave"%string]))
      (fun e =>
         pygame (subprocess_Popen
                   [executable; stddrawPath; "reportFileSaveError"%string; e])).

Definition pygame_event_get : M (list Event) :=
  fun s => match pygame_events s with
           | [] => (Returns [], s)
           | batch :: rest => (Returns batch, Assign.events rest s)
           end.

Definition handle_event (event : Event) : M unit :=
  match event with
  | QUIT => raise SystemExit
  | KEYDOWN unicode =>
      keys <- read _keysTyped ;;
      assign Assign.keysTyped ([unicode] ++ keys)
  | MOUSEBUTTONUP button _ =>
      if (button =? 3)%Z then _saveToFile else ret tt
  | MOUSEBUTTONDOWN button pos =>
      if (button =? 1)%Z then
        assign Assign.mousePressed true ;;
        assign Assign.mousePos (Some pos)
      else ret tt
  | OTHEREVENT => ret tt
  end.

Fixpoint handle_events (events : list Event) : M unit :=
  match events with
  | [] => ret tt
  | event :: rest => handle_event event ;; handle_events rest
  end.

Definition _checkForEvents : M unit :=
  _make_sure_window_created ;;
  events <- pygame_event_get ;;
  handle_events events.

Definition _show : M unit :=
  pygame background_blit ;;
  pygame display_flip ;;
  _checkForEvents.

Definition QUANTUM : Q := 1 # 10.

(** [while True: time.sleep(QUANTUM); _checkForEvents()], at most [fuel]
    rounds: the loop is left only by an exception. *)
Fixpoint wait_forever (fuel : nat) : M unit :=
  match fuel with
  | O => out_of_fuel
  | S fuel' =>
      pygame (time_sleep QUANTUM) ;;
      _checkForEvents ;;
      wait_forever fuel'
  end.

Definition _showAndWaitForever (fuel : nat) : M unit :=
  _make_sure_window_created ;;
  _show ;;
  wait_forever fuel.

Definition sleep (sec : Q) : M unit :=
  if Qltb sec 0 then raise ValueError else pygame (time_sleep sec).

Fixpoint wait_loop (fuel : nat) (sec secondsWaited : Q) : M unit :=
  if Qltb secondsWaited sec then
    match fuel with
    | O => out_of_fuel
    | S fuel' =>
        sleep QUANTUM ;;
        let secondsWaited := secondsWaited + QUANTUM in
        _checkForEvents ;;
        wait_loop fuel' sec secondsWaited
    end
  else ret tt.

(** [msec] is [None] for [float('inf')], the default. *)
Definition show (fuel : nat) (msec : option Q) : M unit :=
  match msec with
  | None => _showAndWaitForever fuel
  | Some msec =>
      _make_sure_window_created ;;
      _show ;;
      _checkForEvents ;;
      let sec := msec / 1000 in
      if Qltb sec QUANTUM then sleep sec
      else wait_loop fuel sec 0
  end.

(** ** Keys and mouse *)

Definition hasNextKeyTyped : M bool :=
  keys <- read _keysTyped ;;
  ret (match keys with [] => false | _ :: _ => true end).

(** [list.pop()]: the last element and the list without it. *)
Definition pop {A} (l : list A) : option (A * list A) :=
  match rev l with
  | [] => None
  | a :: r => Some (a, rev r)
  end.

Definition nextKeyTyped : M string :=
  keys <- read _keysTyped ;;
  match pop keys with
  | None => raise IndexError
  | Some (key, rest) => assign Assign.keysTyped rest ;; ret key
  end.

Definition mousePressed : M bool :=
  pressed <- read _mousePressed ;;
  if pressed : bool then assign Assign.mousePressed false ;; ret true
  else ret false.

(** [if _mousePos:] a position is a pair, which is true; [None] is false. *)
Definition mouseX : M Q :=
  pos <- read _mousePos ;;
  match pos with
  | Some p => _user_x (inject_Z (fst p))
  | None => raise (Exception "Can't determine mouse position if a click hasn't happened")
  end.

Definition mouseY : M Q :=
  pos <- read _mousePos ;;
  match pos with
  | Some p => _user_y (inject_Z (snd p))
  | None => raise (Exception "Can't determine mouse position if a click hasn't happened")
  end.

(** ** Initialisation and the public interface *)

Definition module_init : M unit :=
  set_xscale _DEFAULT_XMIN _DEFAULT_XMAX ;;
  set_yscale _DEFAULT_YMIN _DEFAULT_YMAX ;;
  set_pen_radius _DEFAULT_PEN_RADIUS ;;
  pygame font_init.

Definition initial_state (events : list (list Event)) (replies : list string)
  : State :=
  snd (module_init (module_globals events replies)).

(** The functions a client calls, with their arguments. *)
Inductive Op : Type :=
| call_set_canvas_size (w h : Q)
| call_set_xscale (min max : Q)
| call_set_yscale (min max : Q)
| call_set_pen_radius (r : Q)
| call_set_pen_color (c : Color)
| call_set_font_family (f : string)
| call_set_font_size (s : Z)
| call_point (x y : Q)
| call_line (x0 y0 x1 y1 : Q)
| call_circle (x y r : Q)
| call_filledCircle (x y r : Q)
| call_rectangle (x y w h : Q)
| call_filledRectangle (x y w h : Q)
| call_square (x y r : Q)
| call_filledSquare (x y r : Q)
| call_polygon (x y : list Q)
| call_filledPolygon (x y : list Q)
| call_text (x y : Q) (s : string)
| call_picture (pic : Picture) (x y : option Q)
| call_clear (c : Color)
| call_save (f : string)
| call_show (msec : option Q)
| call_hasNextKeyTyped
| call_nextKeyTyped
| call_mousePressed
| call_mouseX
| call_mouseY.

Definition discard {A} (m : M A) : M unit := _ <- m ;; ret tt.

Definition call (fuel : nat) (op : Op) : M unit :=
  match op with
  | call_set_canvas_size w h => set_canvas_size w h
  | call_set_xscale min max => set_xscale min max
  | call_set_yscale min max => set_yscale min max
  | call_set_pen_radius r => set_pen_radius r
  | call_set_pen_color c => set_pen_color c
  | call_set_font_family f => set_font_family f
  | call_set_font_size s => set_font_size s
  | call_point x y => point x y
  | call_line x0 y0 x1 y1 => line fuel x0 y0 x1 y1
  | call_circle x y r => circle x y r
  | call_filledCircle x y r => filledCircle x y r
  | call_rectangle x y w h => rectangle x y w h
  | call_filledRectangle x y w h => filledRectangle x y w h
  | call_square x y r => square x y r
  | call_filledSquare x y r => filledSquare x y r
  | call_polygon x y => polygon x y
  | call_filledPolygon x y => filledPolygon x y
  | call_text x y s => text x y s
  | call_picture pic x y => picture pic x y
  | call_clear c => clear c
  | call_save f => save f
  | call_show msec => show fuel msec
  | call_hasNextKeyTyped => discard hasNextKeyTyped
  | call_nextKeyTyped => discard nextKeyTyped
  | call_mousePressed => discard mousePressed
  | call_mouseX => discard mouseX
  | call_mouseY => discard mouseY
  end.

(** The states a client can bring the module to: the initial one, and the
    state any call leaves, however it ends; in any environment. *)
Inductive reachable : State -> Prop :=
| reachable_init events replies : reachable (initial_state events replies)
| reachable_call s fuel op :
    reachable s -> reachable (snd (call fuel op s))
| reachable_environment s errors exe path :
    reachable s -> reachable (Assign.environment errors exe path s).

(** The range invariants of the data model. *)
Definition range_invariants (s : State) : Prop :=
  (exists a b, _xmin s = Some a /\ _xmax s = Some b /\ a < b) /\
  (exists a b, _ymin s = Some a /\ _ymax s = Some b /\ a < b) /\
  (exists r, _pen_radius s = Some r /\ 0 <= r).

(** Valid scale bounds and positive canvas dimensions. *)
Definition scale_ok (s : State) : Prop :=
  (exists a b, _xmin s = Some a /\ _xmax s = Some b /\ a < b) /\
  (exists a b, _ymin s = Some a /\ _ymax s = Some b /\ a < b) /\
  0 < _canvasWidth s /\ 0 < _canvasHeight s.

(** What every function of the module respects from the state it starts in
    to the state it leaves: a created window stays created, range invariants
    that hold keep holding, the canvas keeps at least one pixel each way. *)
Definition evolves (s s' : State) : Prop :=
  (_windowCreated s = true -> _windowCreated s' = true) /\
  (range_invariants s -> range_invariants s') /\
  (1 <= _canvasWidth s -> 1 <= _canvasWidth s') /\
  (1 <= _canvasHeight s -> 1 <= _canvasHeight s').

Definition steady {A} (m : M A) : Prop :=
  forall s, evolves s (snd (m s)).

(** The position of the last left click among [events], [before] if there
    is none: what the queries of the mouse position are to report. *)
Fixpoint last_click (events : list Event) (before : option (Z * Z))
  : option (Z * Z) :=
  match events with
  | [] => before
  | MOUSEBUTTONDOWN 1 pos :: rest => last_click rest (Some pos)
  | _ :: rest => last_click rest before
  end.

(** A client taking [n] keys off the queue, one call after the other. *)
Fixpoint next_keys (n : nat) : M (list string) :=
  match n with
  | O => ret []
  | S n' => key <- nextKeyTyped ;; keys <- next_keys n' ;; ret (key :: keys)
  end.

Fixpoint pow2 (n : nat) : Q :=
  match n with
  | O => 1
  | S m => 2 * pow2 m
  end.

(** The toolkit calls a [filledCircle] can issue: those that create the
    window, a pixel, a filled ellipse. *)
Definition filledCircle_call (c : pygame_call) : Prop :=
  match c with
  | display_set_mode _ _ | display_set_caption _ | Surface_new _ _
  | Surface_fill _ => True
  | gfxdraw_pixel _ _ _ => True
  | draw_ellipse _ _ 0%Z => True
  | _ => False
  end.

(** The scale bounds are [a < b] and [c < d] and the canvas is no larger
    than [Wm] by [Hm]: what stays true all through a [_thick_line]. *)
Definition line_env (a b c d Wm Hm : Q) (s : State) : Prop :=
  _xmin s = Some a /\ _xmax s = Some b /\
  _ymin s = Some c /\ _ymax s = Some d /\
  0 < _canvasWidth s /\ _canvasWidth s <= Wm /\
  0 < _canvasHeight s /\ _canvasHeight s <= Hm.

(** A state in which the module can draw: the range invariants hold and the
    canvas has at least one pixel each way (what every reachable state
    satisfies). *)
Definition usable (s : State) : Prop :=
  range_invariants s /\ 1 <= _canvasWidth s /\ 1 <= _canvasHeight s.

(** The calls that draw: shapes, text, pictures, clearing, saving. *)
Definition draws (op : Op) : bool :=
  match op with
  | call_point _ _ | call_line _ _ _ _ | call_circle _ _ _
  | call_filledCircle _ _ _ | call_rectangle _ _ _ _
  | call_filledRectangle _ _ _ _ | call_square _ _ _
  | call_filledSquare _ _ _ | call_polygon _ _ | call_filledPolygon _ _
  | call_text _ _ _ | call_picture _ _ _ | call_clear _ | call_save _ => true
  | _ => false
  end.

(** All a drawing call may do to the state: add calls to the toolkit's log
    and (when there was no window) create the window. *)
Definition drawn_on (s s' : State) : Prop :=
  _xmin s' = _xmin s /\ _ymin s' = _ymin s /\
  _xmax s' = _xmax s /\ _ymax s' = _ymax s /\
  _fontFamily s' = _fontFamily s /\ _fontSize s' = _fontSize s /\
  _pen_radius s' = _pen_radius s /\ _penColor s' = _penColor s /\
  _keysTyped s' = _keysTyped s /\ _mousePressed s' = _mousePressed s /\
  _mousePos s' = _mousePos s /\ pygame_events s' = pygame_events s /\
  dialog_replies s' = dialog_replies s /\
  (_windowCreated s = true ->
   _windowCreated s' = true /\ _canvasWidth s' = _canvasWidth s /\
   _canvasHeight s' = _canvasHeight s) /\
  (exists calls, pygame_log s' = (pygame_log s ++ calls)%list).

Definition framed {A} (m : M A) : Prop :=
  forall s, drawn_on s (snd (m s)).

(** [m] needs no fuel, and ends by returning or by [SystemExit]. *)
Definition returns_or_exits {A} (m : M A) : Prop :=
  forall s, (exists a, fst (m s) = Returns a) \/ fst (m s) = Raises SystemExit.

(** The calls that only set or query the module's state. *)
Definition configures (op : Op) : bool :=
  match op with
  | call_set_xscale _ _ | call_set_yscale _ _ | call_set_pen_radius _
  | call_set_pen_color _ | call_set_font_family _ | call_set_font_size _
  | call_hasNextKeyTyped | call_nextKeyTyped | call_mousePressed
  | call_mouseX | call_mouseY => true
  | _ => false
  end.

(** [m] leaves the stored mouse position alone. *)
Definition keeps_mousePos {A} (m : M A) : Prop :=
  forall s, _mousePos (snd (m s)) = _mousePos s.

(** * The same functions on the code's floats

    The embedding above computes in exact rationals.  This module embeds
    again, over IEEE 754 binary64 numbers (the primitive floats of Rocq,
    which are the floats of CPython), the functions whose behaviour at the
    edges of the float range differs from what exact arithmetic gives: the
    setters of the scale and of the pen radius, the coordinate conversions,
    and the recursion of [_thick_line] with what it calls.  A Python number
    handed to these functions is an [int] or a [float]; the toolkit is again
    a log of calls, here with float arguments. *)

Module IEEE.
Import PrimFloat SpecFloat FloatOps.
#[local] Set Warnings "-notation-overridden,-inexact-float".
#[local] Open Scope float_scope.

Inductive number : Type :=
| PyInt (n : Z)
| PyFloat (f : PrimFloat.float).

Inductive pygame_call : Type :=
| font_init
| display_set_mode (w h : number)
| display_set_caption (title : string)
| Surface_new (w h : number)
| Surface_fill (c : pygame_Color)
| gfxdraw_pixel (x y : Z) (c : pygame_Color)
| draw_ellipse (c : pygame_Color)
    (rect : PrimFloat.float * PrimFloat.float * PrimFloat.float * PrimFloat.float)
    (width : Z)
| draw_line (c : pygame_Color) (start_pos end_pos : PrimFloat.float * PrimFloat.float)
    (width : Z).

Definition _BORDER : PrimFloat.float := 0.
Definition _DEFAULT_XMIN : PrimFloat.float := 0.
Definition _DEFAULT_XMAX : PrimFloat.float := 1.
Definition _DEFAULT_YMIN : PrimFloat.float := 0.
Definition _DEFAULT_YMAX : PrimFloat.float := 1.
Definition _DEFAULT_CANVAS_SIZE : Z := 512.
Definition _DEFAULT_PEN_RADIUS : PrimFloat.float := 0.005.

Record State : Type := mkState {
  _xmin : option PrimFloat.float;
  _ymin : option PrimFloat.float;
  _xmax : option PrimFloat.float;
  _ymax : option PrimFloat.float;
  _canvasWidth : number;
  _canvasHeight : number;
  _pen_radius : option PrimFloat.float;
  _penColor : Color;
  _windowCreated : bool;
  pygame_log : list pygame_call
}.

Module Assign.
Definition xmin v s := mkState v (_ymin s) (_xmax s) (_ymax s) (_canvasWidth s) (_canvasHeight s) (_pen_radius s) (_penColor s) (_windowCreated s) (pygame_log s).
Definition ymin v s := mkState (_xmin s) v (_xmax s) (_ymax s) (_canvasWidth s) (_canvasHeight s) (_pen_radius s) (_penColor s) (_windowCreated s) (pygame_log s).
Definition xmax v s := mkState (_xmin s) (_ymin s) v (_ymax s) (_canvasWidth s) (_canvasHeight s) (_pen_radius s) (_penColor s) (_windowCreated s) (pygame_log s).
Definition ymax v s := mkState (_xmin s) (_ymin s) (_xmax s) v (_canvasWidth s) (_canvasHeight s) (_pen_radius s) (_penColor s) (_windowCreated s) (pygame_log s).
Definition canvasWidth v s := mkState (_xmin s) (_ymin s) (_xmax s) (_ymax s) v (_canvasHeight s) (_pen_radius s) (_penColor s) (_windowCreated s) (pygame_log s).
Definition canvasHeight v s := mkState (_xmin s) (_ymin s) (_xmax s) (_ymax s) (_canvasWidth s) v (_pen_radius s) (_penColor s) (_windowCreated s) (pygame_log s).
Definition pen_radius v s := mkState (_xmin s) (_ymin s) (_xmax s) (_ymax s) (_canvasWidth s) (_canvasHeight s) v (_penColor s) (_windowCreated s) (pygame_log s).
Definition windowCreated v s := mkState (_xmin s) (_ymin s) (_xmax s) (_ymax s) (_canvasWidth s) (_canvasHeight s) (_pen_radius s) (_penColor s) v (pygame_log s).
Definition log v s := mkState (_xmin s) (_ymin s) (_xmax s) (_ymax s) (_canvasWidth s) (_canvasHeight s) (_pen_radius s) (_penColor s) (_windowCreated s) v.
End Assign.

Definition M (A : Type) : Type := State -> outcome A * State.

Definition ret {A} (a : A) : M A := fun s => (Returns a, s).

Definition bind {A B} (m : M A) (k : A -> M B) : M B :=
  fun s =>
    match m s with
    | (Returns a, s') => k a s'
    | (Raises e, s') => (Raises e, s')
    | (OutOfFuel, s') => (OutOfFuel, s')
    end.

Notation "x <- m ;; k" := (bind m (fun x => k))
  (at level 61, m at next level, right associativity).
Notation "m ;; k" := (bind m (fun _ => k))
  (at level 61, right associativity).

Definition raise {A} (e : exn) : M A := fun s => (Raises e, s).
Definition out_of_fuel {A} : M A := fun s => (OutOfFuel, s).
Definition read {A} (g : State -> A) : M A := fun s => (Returns (g s), s).
Definition number_of (g : State -> option PrimFloat.float) : M PrimFloat.float :=
  fun s => match g s with
           | Some v => (Returns v, s)
           | None => (Raises TypeError, s)
           end.
Definition assign {A} (set : A -> State -> State) (v : A) : M unit :=
  fun s => (Returns tt, set v s).

(** A call to the toolkit: logged, and taken to succeed. *)
Definition pygame (c : pygame_call) : M unit :=
  fun s => (Returns tt, Assign.log (pygame_log s ++ [c]) s).

(** The float nearest to an [int], ties to even; infinite when the [int] is
    beyond the float range. *)
Definition float_of_int (n : Z) : PrimFloat.float :=
  SF2Prim (binary_normalize prec emax n 0 false).

(** [float(x)], also what an [int] operand of a float operation becomes:
    [OverflowError] for an [int] too large. *)
Definition float (x : number) : M PrimFloat.float :=
  match x with
  | PyFloat f => ret f
  | PyInt n =>
      let f := float_of_int n in
      if is_infinity f then raise OverflowError else ret f
  end.

(** [round(x)] of a float: the nearest [int], ties to even; [ValueError] for
    NaN and [OverflowError] for an infinity. *)
Definition round (x : PrimFloat.float) : M Z :=
  match Prim2SF x with
  | S754_nan => raise ValueError
  | S754_infinity _ => raise OverflowError
  | S754_zero _ => ret 0%Z
  | S754_finite sign m e =>
      let n :=
        if (0 <=? e)%Z then (Z.pos m * 2 ^ e)%Z
        else
          let d := (2 ^ (- e))%Z in
          let q := (Z.pos m / d)%Z in
          let r := (Z.pos m mod d)%Z in
          if (2 * r <? d)%Z then q
          else if (d <? 2 * r)%Z then (q + 1)%Z
          else if Z.even q then q else (q + 1)%Z in
      ret (if sign then (- n)%Z else n)
  end.

(** Float division: [ZeroDivisionError] for a zero divisor. *)
Definition truediv (a b : PrimFloat.float) : M PrimFloat.float :=
  if b =? 0 then raise ZeroDivisionError else ret (a / b).

Definition _scale_x (x : PrimFloat.float) : M PrimFloat.float :=
  w <- read _canvasWidth ;; xmin <- number_of _xmin ;; w <- float w ;;
  xmax <- number_of _xmax ;;
  truediv (w * (x - xmin)) (xmax - xmin).

Definition _scale_y (y : PrimFloat.float) : M PrimFloat.float :=
  h <- read _canvasHeight ;; ymax <- number_of _ymax ;; h <- float h ;;
  ymin <- number_of _ymin ;;
  truediv (h * (ymax - y)) (ymax - ymin).

Definition _factor_x (w : PrimFloat.float) : M PrimFloat.float :=
  cw <- read _canvasWidth ;; cw <- float cw ;;
  xmax <- number_of _xmax ;; xmin <- number_of _xmin ;;
  truediv (w * cw) (abs (xmax - xmin)).

Definition _factor_y (h : PrimFloat.float) : M PrimFloat.float :=
  ch <- read _canvasHeight ;; ch <- float ch ;;
  ymax <- number_of _ymax ;; ymin <- number_of _ymin ;;
  truediv (h * ch) (abs (ymax - ymin)).

(** [w < 1] for a number [w]: an [int] is compared as an integer. *)
Definition less_than_one (w : number) : bool :=
  match w with
  | PyInt n => (n <? 1)%Z
  | PyFloat f => f <? 1
  end.

Definition set_canvas_size (w h : number) : M unit :=
  created <- read _windowCreated ;;
  if created : bool then raise (Exception "The stddraw window already was created")
  else if less_than_one w || less_than_one h
  then raise (Exception "width and height must be positive")
  else
    assign Assign.canvasWidth w ;;
    assign Assign.canvasHeight h ;;
    pygame (display_set_mode w h) ;;
    pygame (display_set_caption "stddraw window (r-click to save)") ;;
    pygame (Surface_new w h) ;;
    pygame (Surface_fill (_pygame_color WHITE)) ;;
    assign Assign.windowCreated true.

Definition set_xscale (min max : number) : M unit :=
  min <- float min ;;
  max <- float max ;;
  if max <=? min then raise (Exception "min must be less than max")
  else
    let size := max - min in
    assign Assign.xmin (Some (min - _BORDER * size)) ;;
    assign Assign.xmax (Some (max + _BORDER * size)).

Definition set_yscale (min max : number) : M unit :=
  min <- float min ;;
  max <- float max ;;
  if max <=? min then raise (Exception "min must be less than max")
  else
    let size := max - min in
    assign Assign.ymin (Some (min - _BORDER * size)) ;;
    assign Assign.ymax (Some (max + _BORDER * size)).

Definition set_pen_radius (r : number) : M unit :=
  r <- float r ;;
  if r <? 0 then raise (Exception "Argument to setPenRadius() must be non-neg")
  else
    size <- float (PyInt _DEFAULT_CANVAS_SIZE) ;;
    assign Assign.pen_radius (Some (r * size)).

Definition _make_sure_window_created : M unit :=
  created <- read _windowCreated ;;
  if created : bool then ret tt
  else
    set_canvas_size (PyInt _DEFAULT_CANVAS_SIZE) (PyInt _DEFAULT_CANVAS_SIZE) ;;
    assign Assign.windowCreated true.

(** [pygame.gfxdraw.pixel] takes its coordinates as 16-bit integers. *)
Definition pygame_gfxdraw_pixel (x y : Z) (c : pygame_Color) : M unit :=
  if ((-32768 <=? x) && (x <=? 32767) && (-32768 <=? y) && (y <=? 32767))%Z
  then pygame (gfxdraw_pixel x y c)
  else raise OverflowError.

Definition _pixel (x y : PrimFloat.float) : M unit :=
  _make_sure_window_created ;;
  xs <- _scale_x x ;;
  xy <- _scale_y y ;;
  px <- round xs ;;
  py <- round xy ;;
  c <- read _penColor ;;
  pygame_gfxdraw_pixel px py (_pygame_color c).

Definition filledCircle (x y r : number) : M unit :=
  _make_sure_window_created ;;
  x <- float x ;;
  y <- float y ;;
  r <- float r ;;
  ws <- _factor_x (2 * r) ;;
  hs <- _factor_y (2 * r) ;;
  if (ws <=? 1) && (hs <=? 1) then _pixel x y
  else
    xs <- _scale_x x ;;
    ys <- _scale_y y ;;
    c <- read _penColor ;;
    pygame (draw_ellipse (_pygame_color c)
                         (xs - ws / 2, ys - hs / 2, ws, hs) 0).

(** The recursion of [_thick_line] is bounded by [fuel], the depth of
    recursive calls allowed below this one. *)
Fixpoint _thick_line (fuel : nat) (x0 y0 x1 y1 r : PrimFloat.float) : M unit :=
  xs0 <- _scale_x x0 ;;
  ys0 <- _scale_y y0 ;;
  xs1 <- _scale_x x1 ;;
  ys1 <- _scale_y y1 ;;
  if (abs (xs0 - xs1) <? 1) && (abs (ys0 - ys1) <? 1)
  then filledCircle (PyFloat x0) (PyFloat y0) (PyFloat r)
  else
    match fuel with
    | O => out_of_fuel
    | S fuel' =>
        let xMid := (x0 + x1) / 2 in
        let yMid := (y0 + y1) / 2 in
        _thick_line fuel' x0 y0 xMid yMid r ;;
        _thick_line fuel' xMid yMid x1 y1 r
    end.

Definition THICK_LINE_CUTOFF : PrimFloat.float := 3.

Definition line (fuel : nat) (x0 y0 x1 y1 : number) : M unit :=
  _make_sure_window_created ;;
  x0 <- float x0 ;;
  y0 <- float y0 ;;
  x1 <- float x1 ;;
  y1 <- float y1 ;;
  pr <- number_of _pen_radius ;;
  let lineWidth := pr * 2 in
  let lineWidth := if lineWidth =? 0 then 1 else lineWidth in
  if lineWidth <? THICK_LINE_CUTOFF then
    x0s <- _scale_x x0 ;;
    y0s <- _scale_y y0 ;;
    x1s <- _scale_x x1 ;;
    y1s <- _scale_y y1 ;;
    width <- round lineWidth ;;
    c <- read _penColor ;;
    pygame (draw_line (_pygame_color c) (x0s, y0s) (x1s, y1s) width)
  else
    size <- float (PyInt _DEFAULT_CANVAS_SIZE) ;;
    r <- truediv pr size ;;
    _thick_line fuel x0 y0 x1 y1 r.

(** The globals as the top of the module leaves them, and after the
    initialising calls at its end. *)
Definition module_globals : State :=
  {| _xmin := None; _ymin := None; _xmax := None; _ymax := None;
     _canvasWidth := PyFloat (float_of_int _DEFAULT_CANVAS_SIZE);
     _canvasHeight := PyFloat (float_of_int _DEFAULT_CANVAS_SIZE);
     _pen_radius := None; _penColor := _DEFAULT_PEN_COLOR;
     _windowCreated := false; pygame_log := [] |}.

Definition module_init : M unit :=
  set_xscale (PyFloat _DEFAULT_XMIN) (PyFloat _DEFAULT_XMAX) ;;
  set_yscale (PyFloat _DEFAULT_YMIN) (PyFloat _DEFAULT_YMAX) ;;
  set_pen_radius (PyFloat _DEFAULT_PEN_RADIUS) ;;
  pygame font_init.

Definition initial_state : State := snd (module_init module_globals).

(** The range invariants of the module, as comparisons of floats. *)
Definition range_invariants (s : State) : bool :=
  match _xmin s, _xmax s, _ymin s, _ymax s, _pen_radius s with
  | Some a, Some b, Some c, Some d, Some r => (a <? b) && (c <? d) && (0 <=? r)
  | _, _, _, _, _ => false
  end.

End IEEE.

(** * Properties *)

(** ** Stepping through a computation *)

Lemma bind_returns {A B} (m : M A) (k : A -> M B) (s s' : State) (a : A) :
  m s = (Returns a, s') -> bind m k s = k a s'.
Proof. intro H. unfold bind. now rewrite H. Qed.

Lemma bind_raises {A B} (m : M A) (k : A -> M B) (s s' : State) (e : exn) :
  m s = (Raises e, s') -> bind m k s = (Raises e, s').
Proof. intro H. unfold bind. now rewrite H. Qed.

(** ** Numbers *)

Lemma Qltb_lt (a b : Q) : Qltb a b = true <-> a < b.
Proof.
  unfold Qltb. rewrite negb_true_iff.
  destruct (Qle_bool b a) eqn:E.
  - apply Qle_bool_iff in E. split; [discriminate | intro H; lra].
  - split; [intros _ | reflexivity].
    destruct (Qlt_le_dec a b) as [H | H]; [exact H |].
    apply Qle_bool_iff in H. congruence.
Qed.

Lemma Qltb_ge (a b : Q) : Qltb a b = false <-> b <= a.
Proof.
  unfold Qltb. rewrite negb_false_iff. apply Qle_bool_iff.
Qed.

Lemma Qle_bool_gt (a b : Q) : Qle_bool a b = false <-> b < a.
Proof.
  rewrite <- Qltb_lt. unfold Qltb. now rewrite negb_true_iff.
Qed.

Lemma Qeq_bool_nonzero (q : Q) : ~ q == 0 -> Qeq_bool q 0 = false.
Proof.
  intro H. destruct (Qeq_bool q 0) eqn:E; [| reflexivity].
  apply Qeq_bool_eq in E. contradiction.
Qed.

Lemma div_returns (a b : Q) (s : State) :
  ~ b == 0 -> div a b s = (Returns (a / b), s).
Proof.
  intro H. unfold div. now rewrite (Qeq_bool_nonzero b H).
Qed.

(** ** Scaling returns, and leaves the globals alone *)

Lemma _scale_x_returns (s : State) (a b x : Q) :
  _xmin s = Some a -> _xmax s = Some b -> ~ b - a == 0 ->
  _scale_x x s = (Returns (_canvasWidth s * (x - a) / (b - a)), s).
Proof.
  intros Ha Hb Hd. unfold _scale_x, bind, read, number.
  rewrite Ha, Hb. now apply div_returns.
Qed.

Lemma _scale_y_returns (s : State) (a b y : Q) :
  _ymin s = Some a -> _ymax s = Some b -> ~ b - a == 0 ->
  _scale_y y s = (Returns (_canvasHeight s * (b - y) / (b - a)), s).
Proof.
  intros Ha Hb Hd. unfold _scale_y, bind, read, number.
  rewrite Hb, Ha. now apply div_returns.
Qed.

Lemma _factor_x_returns (s : State) (a b w : Q) :
  _xmin s = Some a -> _xmax s = Some b -> ~ b - a == 0 ->
  _factor_x w s = (Returns (w * _canvasWidth s / Qabs (b - a)), s).
Proof.
  intros Ha Hb Hd. unfold _factor_x, bind, read, number.
  rewrite Hb, Ha. apply div_returns.
  apply Qabs_case; intros; lra.
Qed.

Lemma _factor_y_returns (s : State) (a b h : Q) :
  _ymin s = Some a -> _ymax s = Some b -> ~ b - a == 0 ->
  _factor_y h s = (Returns (h * _canvasHeight s / Qabs (b - a)), s).
Proof.
  intros Ha Hb Hd. unfold _factor_y, bind, read, number.
  rewrite Hb, Ha. apply div_returns.
  apply Qabs_case; intros; lra.
Qed.

Lemma _user_x_returns (s : State) (a b x : Q) :
  _xmin s = Some a -> _xmax s = Some b -> ~ _canvasWidth s == 0 ->
  _user_x x s = (Returns (a + x * (b - a) / _canvasWidth s), s).
Proof.
  intros Ha Hb Hd. unfold _user_x, bind, read, number.
  rewrite Ha, Hb. now rewrite (div_returns _ _ _ Hd).
Qed.

Lemma _user_y_returns (s : State) (a b y : Q) :
  _ymin s = Some a -> _ymax s = Some b -> ~ _canvasHeight s == 0 ->
  _user_y y s = (Returns (b - y * (b - a) / _canvasHeight s), s).
Proof.
  intros Ha Hb Hd. unfold _user_y, bind, read, number.
  rewrite Hb, Ha. now rewrite (div_returns _ _ _ Hd).
Qed.

(** ** Scale bounds and pen radius *)

(** In exact arithmetic [set_xscale(min, max)] raises exactly when
    [min >= max]; when it raises no global changes, and when it succeeds
    [_xmin] and [_xmax] hold the values of [min] and [max] ([_BORDER] being
    0) and the y-bounds are as before.  The same holds of [set_yscale] with
    [_ymin] and [_ymax].  (On floats the stored bounds can be NaN:
    see [IEEE.set_xscale] and the last part of the file.) *)
Theorem set_scale_raises_iff (s : State) (min max : Q) :
  (((exists e, fst (set_xscale min max s) = Raises e) <->
    float max <= float min) /\
   (float max <= float min -> snd (set_xscale min max s) = s) /\
   (float min < float max ->
    fst (set_xscale min max s) = Returns tt /\
    (exists a b, _xmin (snd (set_xscale min max s)) = Some a /\
                 _xmax (snd (set_xscale min max s)) = Some b /\
                 a == min /\ b == max) /\
    _ymin (snd (set_xscale min max s)) = _ymin s /\
    _ymax (snd (set_xscale min max s)) = _ymax s)) /\
  (((exists e, fst (set_yscale min max s) = Raises e) <->
    float max <= float min) /\
   (float max <= float min -> snd (set_yscale min max s) = s) /\
   (float min < float max ->
    fst (set_yscale min max s) = Returns tt /\
    (exists a b, _ymin (snd (set_yscale min max s)) = Some a /\
                 _ymax (snd (set_yscale min max s)) = Some b /\
                 a == min /\ b == max) /\
    _xmin (snd (set_yscale min max s)) = _xmin s /\
    _xmax (snd (set_yscale min max s)) = _xmax s)).
Proof.
  unfold set_xscale, set_yscale, float.
  destruct (Qle_bool max min) eqn:E.
  - apply Qle_bool_iff in E.
    repeat split; intros; simpl; try lra; try (eexists; reflexivity).
  - apply Qle_bool_gt in E.
    assert (Hx : ~ (exists e : exn, @Returns unit tt = Raises e))
      by (intros [e He]; discriminate).
    repeat split; intros; simpl in *; try lra; try tauto;
      try (destruct Hx; assumption).
    + exists (min - _BORDER * (max - min)), (max + _BORDER * (max - min)).
      unfold _BORDER. repeat split; ring.
    + exists (min - _BORDER * (max - min)), (max + _BORDER * (max - min)).
      unfold _BORDER. repeat split; ring.
Qed.


(** The state right after import, with no event pending. *)
Example fresh_state_bounds :
  let s := initial_state [] [] in
  _xmin s = Some (0 - 0 * (1 - 0)) /\ _xmax s = Some (1 + 0 * (1 - 0)) /\
  _pen_radius s = Some ((5 # 1000) * 512) /\ _windowCreated s = false.
Proof. repeat split. Qed.

Lemma set_scale_raises_iff_witness :
  snd (set_xscale 5 2 (initial_state [] [])) = initial_state [] [] /\
  fst (set_yscale 2 5 (initial_state [] [])) = Returns tt.
Proof.
  split.
  - apply (proj1 (proj2 (proj1 (set_scale_raises_iff (initial_state [] []) 5 2)))).
    unfold float, Qle. simpl. lia.
  - apply (proj2 (proj2 (proj2 (set_scale_raises_iff (initial_state [] []) 2 5)))).
    reflexivity.
Defined.


(** ** Pixels and user coordinates *)

(** C2. With [_xmin < _xmax] and a positive canvas width, [_scale_x] and
    [_user_x] both return, change no global, and are inverse to each other
    in both directions; likewise [_scale_y] and [_user_y] with
    [_ymin < _ymax] and a positive canvas height. *)
Theorem scale_user_inverse (s : State) :
  (forall a b, _xmin s = Some a -> _xmax s = Some b -> a < b ->
               0 < _canvasWidth s ->
     (forall x, exists p x',
         _scale_x x s = (Returns p, s) /\ _user_x p s = (Returns x', s) /\
         x' == x) /\
     (forall p, exists x p',
         _user_x p s = (Returns x, s) /\ _scale_x x s = (Returns p', s) /\
         p' == p)) /\
  (forall a b, _ymin s = Some a -> _ymax s = Some b -> a < b ->
               0 < _canvasHeight s ->
     (forall y, exists p y',
         _scale_y y s = (Returns p, s) /\ _user_y p s = (Returns y', s) /\
         y' == y) /\
     (forall p, exists y p',
         _user_y p s = (Returns y, s) /\ _scale_y y s = (Returns p', s) /\
         p' == p)).
Proof.
  split; intros a b Ha Hb Hab Hw.
  - assert (Hd : ~ b - a == 0) by lra.
    assert (Hc : ~ _canvasWidth s == 0) by lra.
    split; [intro x | intro p]; do 2 eexists;
      rewrite (_scale_x_returns s a b _ Ha Hb Hd),
              (_user_x_returns s a b _ Ha Hb Hc);
      (split; [reflexivity | split; [reflexivity |]]); field; lra.
  - assert (Hd : ~ b - a == 0) by lra.
    assert (Hc : ~ _canvasHeight s == 0) by lra.
    split; [intro y | intro p]; do 2 eexists;
      rewrite (_scale_y_returns s a b _ Ha Hb Hd),
              (_user_y_returns s a b _ Ha Hb Hc);
      (split; [reflexivity | split; [reflexivity |]]); field; lra.
Qed.

Lemma scale_user_inverse_witness :
  exists p x',
    _scale_x (1 # 3) (initial_state [] []) = (Returns p, initial_state [] []) /\
    _user_x p (initial_state [] []) = (Returns x', initial_state [] []) /\
    x' == 1 # 3.
Proof.
  refine (proj1 (proj1 (scale_user_inverse (initial_state [] []))
                   (0 - 0 * (1 - 0)) (1 + 0 * (1 - 0)) _ _ _ _) (1 # 3)).
  - reflexivity.
  - reflexivity.
  - reflexivity.
  - reflexivity.
Defined.



(** ** What no function undoes *)

Lemma evolves_refl (s : State) : evolves s s.
Proof. unfold evolves. tauto. Qed.

Lemma evolves_trans (s1 s2 s3 : State) :
  evolves s1 s2 -> evolves s2 s3 -> evolves s1 s3.
Proof. unfold evolves. tauto. Qed.

Lemma steady_bind {A B} (m : M A) (k : A -> M B) :
  steady m -> (forall a, steady (k a)) -> steady (bind m k).
Proof.
  intros Hm Hk s. unfold bind. specialize (Hm s).
  destruct (m s) as [[a | e |] s']; simpl in *; try assumption.
  eapply evolves_trans; [exact Hm | apply Hk].
Qed.

Lemma steady_ret {A} (a : A) : steady (ret a).
Proof. intro s. apply evolves_refl. Qed.

Lemma steady_raise {A} (e : exn) : steady (@raise A e).
Proof. intro s. apply evolves_refl. Qed.

Lemma steady_out_of_fuel {A} : steady (@out_of_fuel A).
Proof. intro s. apply evolves_refl. Qed.

Lemma steady_read {A} (g : State -> A) : steady (read g).
Proof. intro s. apply evolves_refl. Qed.

Lemma steady_number (g : State -> option Q) : steady (number g).
Proof. intro s. unfold number. destruct (g s); apply evolves_refl. Qed.

Lemma steady_div (a b : Q) : steady (div a b).
Proof. unfold div. destruct (Qeq_bool b 0); intro s; apply evolves_refl. Qed.

Lemma steady_pygame (c : pygame_call) : steady (pygame c).
Proof. intro s. unfold evolves, range_invariants. simpl. tauto. Qed.

Lemma steady_pygame_draw_polygon c points w :
  steady (pygame_draw_polygon c points w).
Proof.
  unfold pygame_draw_polygon.
  destruct (List.length points <? 3)%nat;
    [apply steady_raise | apply steady_pygame].
Qed.

Lemma steady_pygame_image_save f : steady (pygame_image_save f).
Proof.
  intro s. unfold pygame_image_save.
  destruct (image_save_errors s) as [| [msg |] rest];
    unfold evolves, range_invariants; simpl; tauto.
Qed.

Lemma steady_try_except (body : M unit) (handler : string -> M unit) :
  steady body -> (forall e, steady (handler e)) ->
  steady (try_except_pygame_error body handler).
Proof.
  intros Hb Hh s. unfold try_except_pygame_error. specialize (Hb s).
  destruct (body s) as [[[] | e |] s']; simpl in *; try assumption.
  destruct e; simpl; try assumption.
  eapply evolves_trans; [exact Hb | apply Hh].
Qed.

Lemma steady_communicate : steady communicate.
Proof.
  intro s. unfold communicate.
  destruct (dialog_replies s); unfold evolves, range_invariants; simpl; tauto.
Qed.

Lemma steady_pygame_event_get : steady pygame_event_get.
Proof.
  intro s. unfold pygame_event_get.
  destruct (pygame_events s); unfold evolves, range_invariants; simpl; tauto.
Qed.

(** Assignments to globals that none of the tracked properties reads. *)
Ltac steady_assign :=
  intro s; unfold evolves, range_invariants; simpl; tauto.

Lemma steady_assign_penColor c : steady (assign Assign.penColor c).
Proof. steady_assign. Qed.
Lemma steady_assign_fontFamily f : steady (assign Assign.fontFamily f).
Proof. steady_assign. Qed.
Lemma steady_assign_fontSize z : steady (assign Assign.fontSize z).
Proof. steady_assign. Qed.
Lemma steady_assign_keysTyped k : steady (assign Assign.keysTyped k).
Proof. steady_assign. Qed.
Lemma steady_assign_mousePressed b : steady (assign Assign.mousePressed b).
Proof. steady_assign. Qed.
Lemma steady_assign_mousePos p : steady (assign Assign.mousePos p).
Proof. steady_assign. Qed.
Lemma steady_assign_windowCreated : steady (assign Assign.windowCreated true).
Proof. steady_assign. Qed.

Create HintDb steady discriminated.
#[local] Hint Resolve steady_pygame_draw_polygon steady_pygame_image_save
  : steady.
#[local] Hint Resolve steady_ret steady_raise steady_out_of_fuel steady_read
  steady_number steady_div steady_pygame steady_communicate
  steady_pygame_event_get steady_assign_penColor steady_assign_fontFamily
  steady_assign_fontSize steady_assign_keysTyped steady_assign_mousePressed
  steady_assign_mousePos steady_assign_windowCreated : steady.

(** Break a computation at its binds and branches. *)
Ltac steady_step :=
  cbv zeta;
  match goal with
  | |- steady (bind _ _) => apply steady_bind; [| intros ?]
  | |- steady (if ?b then _ else _) => destruct b
  | |- steady (match ?x with _ => _ end) => destruct x
  | |- steady _ => solve [auto with steady]
  end.
Ltac steady := repeat steady_step.

Lemma steady_set_canvas_size (w h : Q) : steady (set_canvas_size w h).
Proof.
  intro s. unfold set_canvas_size, bind, read.
  destruct (_windowCreated s) eqn:Ec; [apply evolves_refl |].
  destruct (Qltb w 1 || Qltb h 1) eqn:E; [apply evolves_refl |].
  apply orb_false_iff in E. destruct E as [Ew Eh].
  apply Qltb_ge in Ew, Eh.
  unfold evolves, range_invariants. simpl. tauto.
Qed.

Lemma steady_set_xscale (min max : Q) : steady (set_xscale min max).
Proof.
  intro s. unfold set_xscale, float.
  destruct (Qle_bool max min) eqn:E; [apply evolves_refl |].
  apply Qle_bool_gt in E.
  unfold evolves, range_invariants, _BORDER. simpl.
  repeat split; try tauto.
  do 2 eexists. repeat split. lra.
Qed.

Lemma steady_set_yscale (min max : Q) : steady (set_yscale min max).
Proof.
  intro s. unfold set_yscale, float.
  destruct (Qle_bool max min) eqn:E; [apply evolves_refl |].
  apply Qle_bool_gt in E.
  unfold evolves, range_invariants, _BORDER. simpl.
  repeat split; try tauto.
  do 2 eexists. repeat split. lra.
Qed.

Lemma steady_set_pen_radius (r : Q) : steady (set_pen_radius r).
Proof.
  intro s. unfold set_pen_radius, float, _DEFAULT_CANVAS_SIZE.
  destruct (Qltb r 0) eqn:E; [apply evolves_refl |].
  apply Qltb_ge in E.
  unfold evolves, range_invariants. simpl.
  repeat split; try tauto.
  eexists. split; [reflexivity | lra].
Qed.

#[local] Hint Resolve steady_set_canvas_size steady_set_xscale
  steady_set_yscale steady_set_pen_radius : steady.

Lemma steady_make_sure_window_created : steady _make_sure_window_created.
Proof. unfold _make_sure_window_created. steady. Qed.
#[local] Hint Resolve steady_make_sure_window_created : steady.

Lemma steady_scale_x x : steady (_scale_x x).
Proof. unfold _scale_x. steady. Qed.
Lemma steady_scale_y y : steady (_scale_y y).
Proof. unfold _scale_y. steady. Qed.
Lemma steady_factor_x w : steady (_factor_x w).
Proof. unfold _factor_x. steady. Qed.
Lemma steady_factor_y h : steady (_factor_y h).
Proof. unfold _factor_y. steady. Qed.
Lemma steady_user_x x : steady (_user_x x).
Proof. unfold _user_x. steady. Qed.
Lemma steady_user_y y : steady (_user_y y).
Proof. unfold _user_y. steady. Qed.
#[local] Hint Resolve steady_scale_x steady_scale_y steady_factor_x
  steady_factor_y steady_user_x steady_user_y : steady.

Lemma steady_pixel x y : steady (_pixel x y).
Proof. unfold _pixel. steady. Qed.
#[local] Hint Resolve steady_pixel : steady.

Lemma steady_point x y : steady (point x y).
Proof. unfold point. steady. Qed.
Lemma steady_circle x y r : steady (circle x y r).
Proof. unfold circle. steady. Qed.
Lemma steady_filledCircle x y r : steady (filledCircle x y r).
Proof. unfold filledCircle. steady. Qed.
Lemma steady_rectangle x y w h : steady (rectangle x y w h).
Proof. unfold rectangle. steady. Qed.
Lemma steady_filledRectangle x y w h : steady (filledRectangle x y w h).
Proof. unfold filledRectangle. steady. Qed.
#[local] Hint Resolve steady_point steady_circle steady_filledCircle
  steady_rectangle steady_filledRectangle : steady.

Lemma steady_thick_line fuel : forall x0 y0 x1 y1 r,
  steady (_thick_line fuel x0 y0 x1 y1 r).
Proof.
  induction fuel as [| fuel IH]; intros; simpl; steady.
Qed.
#[local] Hint Resolve steady_thick_line : steady.

Lemma steady_line fuel x0 y0 x1 y1 : steady (line fuel x0 y0 x1 y1).
Proof. unfold line. steady. Qed.

Lemma steady_square x y r : steady (square x y r).
Proof. unfold square. steady. Qed.
Lemma steady_filledSquare x y r : steady (filledSquare x y r).
Proof. unfold filledSquare. steady. Qed.

Lemma steady_for_each {A B} (f : A -> M B) (l : list A) :
  (forall a, steady (f a)) -> steady (for_each f l).
Proof.
  intro Hf. induction l as [| a l IH]; simpl; steady.
Qed.

Lemma steady_pair_points xs : forall ys, steady (pair_points xs ys).
Proof.
  induction xs as [| x xs IH]; intros ys; simpl; steady.
Qed.

Lemma steady_first_point xs ys : steady (first_point xs ys).
Proof. unfold first_point. steady. Qed.
#[local] Hint Resolve steady_pair_points steady_first_point : steady.

Lemma steady_polygon x y : steady (polygon x y).
Proof.
  unfold polygon. steady; apply steady_for_each; intro; auto with steady.
Qed.
Lemma steady_filledPolygon x y : steady (filledPolygon x y).
Proof.
  unfold filledPolygon. steady; apply steady_for_each; intro; auto with steady.
Qed.

Lemma steady_text x y t : steady (text x y t).
Proof. unfold text. steady. Qed.
Lemma steady_picture pic x y : steady (picture pic x y).
Proof. unfold picture. steady. Qed.
Lemma steady_clear c : steady (clear c).
Proof. unfold clear. steady. Qed.
Lemma steady_save f : steady (save f).
Proof. unfold save. steady. Qed.
#[local] Hint Resolve steady_save : steady.

Lemma steady_saveToFile : steady _saveToFile.
Proof. unfold _saveToFile. steady. apply steady_try_except; intros; steady. Qed.
#[local] Hint Resolve steady_saveToFile : steady.

Lemma steady_handle_event e : steady (handle_event e).
Proof. unfold handle_event. steady. Qed.
#[local] Hint Resolve steady_handle_event : steady.

Lemma steady_handle_events evs : steady (handle_events evs).
Proof. induction evs as [| e evs IH]; simpl; steady. Qed.
#[local] Hint Resolve steady_handle_events : steady.

Lemma steady_checkForEvents : steady _checkForEvents.
Proof. unfold _checkForEvents. steady. Qed.
#[local] Hint Resolve steady_checkForEvents : steady.

Lemma steady_show_ : steady _show.
Proof. unfold _show. steady. Qed.
#[local] Hint Resolve steady_show_ : steady.

Lemma steady_wait_forever fuel : steady (wait_forever fuel).
Proof. induction fuel as [| fuel IH]; simpl; steady. Qed.

Lemma steady_sleep sec : steady (sleep sec).
Proof. unfold sleep. steady. Qed.
#[local] Hint Resolve steady_wait_forever steady_sleep : steady.

Lemma steady_wait_loop fuel : forall sec waited,
  steady (wait_loop fuel sec waited).
Proof. induction fuel as [| fuel IH]; intros; simpl; steady. Qed.
#[local] Hint Resolve steady_wait_loop : steady.

Lemma steady_show fuel msec : steady (show fuel msec).
Proof. unfold show, _showAndWaitForever. steady. Qed.

Lemma steady_hasNextKeyTyped : steady hasNextKeyTyped.
Proof. unfold hasNextKeyTyped. steady. Qed.
Lemma steady_nextKeyTyped : steady nextKeyTyped.
Proof. unfold nextKeyTyped. steady. Qed.
Lemma steady_mousePressed : steady mousePressed.
Proof. unfold mousePressed. steady. Qed.
Lemma steady_mouseX : steady mouseX.
Proof. unfold mouseX. steady. Qed.
Lemma steady_mouseY : steady mouseY.
Proof. unfold mouseY. steady. Qed.

#[local] Hint Resolve steady_line steady_square steady_filledSquare
  steady_polygon steady_filledPolygon steady_text steady_picture steady_clear
  steady_show steady_hasNextKeyTyped steady_nextKeyTyped steady_mousePressed
  steady_mouseX steady_mouseY : steady.

(** Every call of the public interface, however it ends. *)
Lemma steady_call (fuel : nat) (op : Op) : steady (call fuel op).
Proof.
  destruct op; unfold call, discard, set_pen_color, set_font_family,
    set_font_size; steady.
Qed.

(** ** The window *)

(** C4. [set_canvas_size(w, h)] raises when the window was already created,
    and when [w < 1] or [h < 1], leaving the globals as they were; otherwise
    it returns, having recorded [w] and [h] as the canvas width and height
    and set the window-created flag.  No call of the public interface resets
    the flag once it is set. *)
Theorem set_canvas_size_guards (s : State) (w h : Q) :
  (_windowCreated s = true ->
   exists e, set_canvas_size w h s = (Raises e, s)) /\
  (w < 1 \/ h < 1 -> exists e, set_canvas_size w h s = (Raises e, s)) /\
  (_windowCreated s = false -> 1 <= w -> 1 <= h ->
   fst (set_canvas_size w h s) = Returns tt /\
   _canvasWidth (snd (set_canvas_size w h s)) = w /\
   _canvasHeight (snd (set_canvas_size w h s)) = h /\
   _windowCreated (snd (set_canvas_size w h s)) = true) /\
  (forall fuel op,
      _windowCreated s = true ->
      _windowCreated (snd (call fuel op s)) = true).
Proof.
  repeat apply conj.
  - intro Hc. unfold set_canvas_size, bind, read. rewrite Hc.
    eexists. reflexivity.
  - intros Hwh. unfold set_canvas_size, bind, read.
    destruct (_windowCreated s); [eexists; reflexivity |].
    assert (E : Qltb w 1 || Qltb h 1 = true).
    { apply orb_true_iff. destruct Hwh as [H | H]; [left | right];
        now apply Qltb_lt. }
    rewrite E. eexists. reflexivity.
  - intros Hc Hw Hh. unfold set_canvas_size, bind, read. rewrite Hc.
    assert (E : Qltb w 1 || Qltb h 1 = false).
    { apply orb_false_iff. split; now apply Qltb_ge. }
    rewrite E. repeat split.
  - intros fuel op Hc. now apply (steady_call fuel op s).
Qed.

Lemma set_canvas_size_guards_witness :
  (exists e, set_canvas_size 0 300 (initial_state [] [])
             = (Raises e, initial_state [] [])) /\
  _canvasWidth (snd (set_canvas_size 200 300 (initial_state [] []))) = 200 /\
  _windowCreated
    (snd (call 0 (call_set_xscale 0 10)
            (snd (set_canvas_size 200 300 (initial_state [] []))))) = true.
Proof.
  repeat apply conj.
  - apply (proj1 (proj2 (set_canvas_size_guards (initial_state [] []) 0 300))).
    left. reflexivity.
  - refine (proj1 (proj2 (proj1 (proj2 (proj2
      (set_canvas_size_guards (initial_state [] []) 200 300))) _ _ _))).
    + reflexivity.
    + unfold Qle; simpl; lia.
    + unfold Qle; simpl; lia.
  - apply (proj2 (proj2 (proj2
      (set_canvas_size_guards
         (snd (set_canvas_size 200 300 (initial_state [] []))) 1 1)))).
    reflexivity.
Defined.

(** ** The range invariants *)

Lemma initial_state_invariants events replies :
  range_invariants (initial_state events replies) /\
  1 <= _canvasWidth (initial_state events replies) /\
  1 <= _canvasHeight (initial_state events replies).
Proof.
  unfold range_invariants. simpl.
  repeat split; try (do 2 eexists; repeat split); try (unfold Qle; simpl; lia).
Qed.

Lemma reachable_invariants (s : State) :
  reachable s ->
  range_invariants s /\ 1 <= _canvasWidth s /\ 1 <= _canvasHeight s.
Proof.
  induction 1 as [events replies | s fuel op Hr IH | s errors exe path Hr IH].
  - apply initial_state_invariants.
  - destruct (steady_call fuel op s) as (_ & H1 & H2 & H3). tauto.
  - exact IH.
Qed.

(** In exact arithmetic [_xmin < _xmax], [_ymin < _ymax] and
    [_pen_radius >= 0] hold in every state reachable from the initial one by
    calls of the public interface, and every such call preserves them.  (On
    floats a NaN gets past the guards of the setters: see the last part of
    the file.) *)
Theorem range_invariants_hold :
  (forall s, reachable s -> range_invariants s) /\
  (forall s fuel op,
      range_invariants s -> range_invariants (snd (call fuel op s))).
Proof.
  split.
  - intros s Hr. now apply reachable_invariants.
  - intros s fuel op Hs. now apply (steady_call fuel op s).
Qed.

Lemma range_invariants_hold_witness :
  range_invariants
    (snd (call 0 (call_set_xscale 3 7)
            (snd (call 0 (call_set_pen_radius (-1)) (initial_state [] []))))).
Proof.
  apply (proj1 range_invariants_hold).
  apply reachable_call. apply reachable_call. apply reachable_init.
Defined.

(** ** Making sure the window exists *)

Lemma make_sure_window_created_returns (s : State) :
  fst (_make_sure_window_created s) = Returns tt.
Proof.
  unfold _make_sure_window_created, set_canvas_size, bind, read.
  destruct (_windowCreated s) eqn:E; [reflexivity |].
  rewrite E. reflexivity.
Qed.

Lemma make_sure_window_created_frame (s : State) :
  let s' := snd (_make_sure_window_created s) in
  _xmin s' = _xmin s /\ _xmax s' = _xmax s /\
  _ymin s' = _ymin s /\ _ymax s' = _ymax s /\
  _pen_radius s' = _pen_radius s /\ _penColor s' = _penColor s /\
  _keysTyped s' = _keysTyped s /\ _mousePos s' = _mousePos s /\
  _mousePressed s' = _mousePressed s /\
  pygame_events s' = pygame_events s /\
  dialog_replies s' = dialog_replies s /\
  _windowCreated s' = true.
Proof.
  unfold _make_sure_window_created, set_canvas_size, bind, read.
  destruct (_windowCreated s) eqn:E; [simpl; tauto |].
  rewrite E. simpl. tauto.
Qed.


Lemma make_sure_window_created_eq (s : State) :
  _make_sure_window_created s = (Returns tt, snd (_make_sure_window_created s)).
Proof.
  rewrite <- (make_sure_window_created_returns s) at 1.
  now destruct (_make_sure_window_created s).
Qed.

Lemma make_sure_window_created_again (s : State) :
  _windowCreated s = true -> _make_sure_window_created s = (Returns tt, s).
Proof.
  intro H. unfold _make_sure_window_created, bind, read. now rewrite H.
Qed.

(** ** The mouse *)

Lemma keeps_mousePos_bind {A B} (m : M A) (k : A -> M B) :
  keeps_mousePos m -> (forall a, keeps_mousePos (k a)) ->
  keeps_mousePos (bind m k).
Proof.
  intros Hm Hk s. unfold bind. specialize (Hm s).
  destruct (m s) as [[a | e |] s']; simpl in *; try assumption.
  now rewrite Hk.
Qed.

Lemma keeps_mousePos_try (body : M unit) (handler : string -> M unit) :
  keeps_mousePos body -> (forall e, keeps_mousePos (handler e)) ->
  keeps_mousePos (try_except_pygame_error body handler).
Proof.
  intros Hb Hh s. unfold try_except_pygame_error. specialize (Hb s).
  destruct (body s) as [[[] | e |] s']; simpl in *; try assumption.
  destruct e; simpl; try assumption. now rewrite Hh.
Qed.

Lemma keeps_mousePos_make_sure : keeps_mousePos _make_sure_window_created.
Proof. intro s. apply (make_sure_window_created_frame s). Qed.

Lemma keeps_mousePos_pygame c : keeps_mousePos (pygame c).
Proof. intro s. reflexivity. Qed.

Lemma keeps_mousePos_image_save f : keeps_mousePos (pygame_image_save f).
Proof.
  intro s. unfold pygame_image_save.
  now destruct (image_save_errors s) as [| [msg |] rest].
Qed.

Lemma keeps_mousePos_communicate : keeps_mousePos communicate.
Proof. intro s. unfold communicate. now destruct (dialog_replies s). Qed.

Lemma keeps_mousePos_saveToFile : keeps_mousePos _saveToFile.
Proof.
  unfold _saveToFile, save.
  repeat first
    [ apply keeps_mousePos_bind; [| intros ?]
    | apply keeps_mousePos_try; [| intros ?]
    | apply keeps_mousePos_make_sure
    | apply keeps_mousePos_pygame
    | apply keeps_mousePos_image_save
    | apply keeps_mousePos_communicate
    | (intro; reflexivity)
    | match goal with
      | |- keeps_mousePos (if ?b then _ else _) => destruct b
      end ].
Qed.

Lemma saveToFile_mousePos (s : State) :
  _mousePos (snd (_saveToFile s)) = _mousePos s.
Proof. apply keeps_mousePos_saveToFile. Qed.

Lemma handle_events_last_click (events : list Event) :
  forall s s',
    handle_events events s = (Returns tt, s') ->
    _mousePos s' = last_click events (_mousePos s).
Proof.
  induction events as [| e rest IH]; intros s s' H.
  - simpl in H. injection H as <-. reflexivity.
  - simpl in H. unfold bind in H.
    destruct (handle_event e s) as [[[] | ex |] s1] eqn:E; try discriminate.
    apply IH in H. rewrite H. clear H IH.
    destruct e as [| u | b p | b p |]; simpl in E.
    + discriminate.
    + injection E as <-. reflexivity.
    + destruct (b =? 3)%Z.
      * pose proof (saveToFile_mousePos s) as Hs. rewrite E in Hs.
        simpl in Hs. rewrite Hs. now destruct b as [| [] |].
      * injection E as <-. now destruct b as [| [] |].
    + destruct b as [| [] |]; simpl in E; injection E as <-; reflexivity.
    + injection E as <-. reflexivity.
Qed.

(** C5. In a reachable state [mouseX()] and [mouseY()] raise exactly when
    [_mousePos] is still [None]; otherwise they return what [_user_x] and
    [_user_y] give for the stored position; either way no global changes.
    The stored position is that of the last left click among the events
    handled ([_checkForEvents] returning). *)
Theorem mouse_query_raises_iff (s : State) :
  reachable s ->
  ((exists e, fst (mouseX s) = Raises e) <-> _mousePos s = None) /\
  ((exists e, fst (mouseY s) = Raises e) <-> _mousePos s = None) /\
  (forall p, _mousePos s = Some p ->
     exists x y,
       _user_x (inject_Z (fst p)) s = (Returns x, s) /\
       _user_y (inject_Z (snd p)) s = (Returns y, s) /\
       mouseX s = (Returns x, s) /\ mouseY s = (Returns y, s)) /\
  snd (mouseX s) = s /\ snd (mouseY s) = s /\
  (forall s', _checkForEvents s = (Returns tt, s') ->
     _mousePos s' = last_click (hd [] (pygame_events s)) (_mousePos s)).
Proof.
  intro Hr.
  destruct (reachable_invariants s Hr)
    as (((a & b & Ha & Hb & Hab) & (c & d & Hc & Hd & Hcd) & _) & Hw & Hh).
  assert (Hw0 : ~ _canvasWidth s == 0) by lra.
  assert (Hh0 : ~ _canvasHeight s == 0) by lra.
  assert (HX : forall x, _user_x x s = (Returns (a + x * (b - a) / _canvasWidth s), s))
    by (intro; now apply _user_x_returns).
  assert (HY : forall y, _user_y y s = (Returns (d - y * (d - c) / _canvasHeight s), s))
    by (intro; now apply _user_y_returns).
  assert (HE : forall s', _checkForEvents s = (Returns tt, s') ->
     _mousePos s' = last_click (hd [] (pygame_events s)) (_mousePos s)).
  { intros s' H. unfold _checkForEvents, bind in H.
    rewrite (make_sure_window_created_eq s) in H.
    destruct (make_sure_window_created_frame s)
      as (_&_&_&_&_&_&_&Hm&_&He&_).
    unfold pygame_event_get in H. rewrite He in H.
    destruct (pygame_events s) as [| batch rest].
    - injection H as <-. simpl. now rewrite Hm.
    - apply handle_events_last_click in H. simpl in H. rewrite H.
      simpl. now rewrite Hm. }
  unfold mouseX, mouseY, bind, read.
  destruct (_mousePos s) as [p |] eqn:Ep.
  - rewrite HX, HY. simpl.
    split; [| split; [| split; [| split; [| split]]]];
      try reflexivity; try exact HE.
    + split; [intros [e He]; discriminate | discriminate].
    + split; [intros [e He]; discriminate | discriminate].
    + intros q Hq. injection Hq as <-. rewrite HX, HY.
      do 2 eexists. repeat split.
  - simpl.
    split; [| split; [| split; [| split; [| split]]]];
      try reflexivity; try exact HE.
    + split; [reflexivity | intros _; eexists; reflexivity].
    + split; [reflexivity | intros _; eexists; reflexivity].
    + discriminate.
Qed.

Lemma mouse_query_raises_iff_witness :
  snd (mouseX (initial_state [[MOUSEBUTTONDOWN 1 (100, 200)%Z]] []))
  = initial_state [[MOUSEBUTTONDOWN 1 (100, 200)%Z]] [].
Proof.
  refine (proj1 (proj2 (proj2 (proj2
    (mouse_query_raises_iff
       (initial_state [[MOUSEBUTTONDOWN 1 (100, 200)%Z]] []) _))))).
  apply reachable_init.
Defined.

Example mouseX_after_click :
  let s := snd (show 0 (Some 0)
                  (initial_state [[MOUSEBUTTONDOWN 1 (128, 384)%Z]] [])) in
  exists x y, fst (mouseX s) = Returns x /\ x == 1 # 4 /\
              fst (mouseY s) = Returns y /\ y == 1 # 4.
Proof. do 2 eexists. repeat split. Qed.

(** ** The queue of typed keys *)

Lemma pop_last {A} (l : list A) (a : A) :
  pop (l ++ [a])%list = Some (a, l).
Proof.
  unfold pop. rewrite rev_app_distr. simpl. now rewrite rev_involutive.
Qed.

Lemma handle_events_keys (keys : list string) :
  forall s, exists s',
    handle_events (List.map KEYDOWN keys) s = (Returns tt, s') /\
    _keysTyped s' = (rev keys ++ _keysTyped s)%list.
Proof.
  induction keys as [| k keys IH]; intro s.
  - exists s. split; reflexivity.
  - destruct (IH (Assign.keysTyped ([k] ++ _keysTyped s) s)) as (s' & H & Hk).
    exists s'. split.
    + simpl. unfold bind, read, assign. simpl. exact H.
    + rewrite Hk. simpl. now rewrite <- app_assoc.
Qed.

Lemma next_keys_in_order (keys : list string) :
  forall s, _keysTyped s = rev keys ->
    exists s', next_keys (List.length keys) s = (Returns keys, s') /\
               _keysTyped s' = [].
Proof.
  induction keys as [| k keys IH]; intros s Hs.
  - exists s. split; [reflexivity | exact Hs].
  - simpl in Hs.
    destruct (IH (Assign.keysTyped (rev keys) s) eq_refl) as (s' & H & Hk).
    exists s'. split; [| exact Hk].
    simpl. unfold bind at 1. unfold nextKeyTyped, bind at 1, read.
    rewrite Hs, pop_last. unfold bind at 1, assign, ret at 1.
    unfold bind. rewrite H. reflexivity.
Qed.

(** C10. A typed key is put at the front of [_keysTyped] and
    [nextKeyTyped()] takes the key at the back, so the keys of a batch of
    events handled when the queue was empty come back in the order typed;
    [hasNextKeyTyped()] returns [True] exactly when the queue is not empty;
    on an empty queue [nextKeyTyped()] ends in the [IndexError] of
    [list.pop], and the globals are as before. *)
Theorem key_queue_fifo (s : State) (keys : list string) :
  (forall k, handle_event (KEYDOWN k) s
             = (Returns tt, Assign.keysTyped (k :: _keysTyped s) s)) /\
  (forall l k, _keysTyped s = (l ++ [k])%list ->
               nextKeyTyped s = (Returns k, Assign.keysTyped l s)) /\
  (forall rest,
      _keysTyped s = [] -> pygame_events s = List.map KEYDOWN keys :: rest ->
      exists s1 s2,
        _checkForEvents s = (Returns tt, s1) /\
        _keysTyped s1 = rev keys /\
        next_keys (List.length keys) s1 = (Returns keys, s2) /\
        _keysTyped s2 = []) /\
  (exists b, hasNextKeyTyped s = (Returns b, s) /\
             (b = true <-> _keysTyped s <> [])) /\
  (_keysTyped s = [] -> nextKeyTyped s = (Raises IndexError, s)).
Proof.
  split; [| split; [| split; [| split]]].
  - intro k. reflexivity.
  - intros l k H. unfold nextKeyTyped, bind, read. rewrite H, pop_last.
    reflexivity.
  - intros rest Hk He.
    destruct (make_sure_window_created_frame s)
      as (_&_&_&_&_&_&Hk1&_&_&He1&_).
    set (s0 := snd (_make_sure_window_created s)) in *.
    destruct (handle_events_keys keys (Assign.events rest s0)) as (s1 & H1 & K1).
    simpl in K1. rewrite Hk1, Hk, app_nil_r in K1.
    destruct (next_keys_in_order keys s1 K1) as (s2 & H2 & K2).
    exists s1, s2. repeat split; try assumption.
    unfold _checkForEvents, bind.
    rewrite (make_sure_window_created_eq s). fold s0.
    unfold pygame_event_get. rewrite He1, He. exact H1.
  - unfold hasNextKeyTyped, bind, read, ret.
    destruct (_keysTyped s) as [| k l]; eexists; (split; [reflexivity |]).
    + split; [discriminate | intro H; now destruct H].
    + split; [discriminate | reflexivity].
  - intro H. unfold nextKeyTyped, bind, read. rewrite H. reflexivity.
Qed.

Lemma key_queue_fifo_witness :
  exists s1 s2,
    _checkForEvents
      (initial_state [[KEYDOWN "a"; KEYDOWN "b"; KEYDOWN "c"]] [])
    = (Returns tt, s1) /\
    _keysTyped s1 = rev ["a"; "b"; "c"]%string /\
    next_keys 3 s1 = (Returns ["a"; "b"; "c"]%string, s2) /\
    _keysTyped s2 = [].
Proof.
  refine (proj1 (proj2 (proj2
    (key_queue_fifo
       (initial_state [[KEYDOWN "a"; KEYDOWN "b"; KEYDOWN "c"]] [])
       ["a"; "b"; "c"]%string))) [] _ _).
  - reflexivity.
  - reflexivity.
Defined.

Example keys_come_back_in_order :
  fst (next_keys 3
         (snd (show 0 (Some 0)
                 (initial_state [[KEYDOWN "x"]; [KEYDOWN "y"; KEYDOWN "z"]] []))))
  = Returns ["x"; "y"; "z"]%string.
Proof. reflexivity. Qed.

(** ** Shapes too small to show *)




Example tiny_circle_is_one_pixel :
  pygame_log (snd (circle (1 # 2) (1 # 2) (1 # 2000)
                     (snd (clear WHITE (initial_state [] [])))))
  = [font_init;
     display_set_mode 512 512;
     display_set_caption "stddraw window (r-click to save)";
     Surface_new 512 512;
     Surface_fill (pygame_Color_rgb 255 255 255);
     Surface_fill (pygame_Color_rgb 255 255 255);
     gfxdraw_pixel 256 256 (pygame_Color_rgb 0 0 0)].
Proof. vm_compute. reflexivity. Qed.


(** ** Thick lines *)


Lemma pow2_pos (n : nat) : 1 <= pow2 n.
Proof. induction n as [| n IH]; simpl; lra. Qed.

Lemma pow2_le (n m : nat) : (n <= m)%nat -> pow2 n <= pow2 m.
Proof.
  induction 1 as [| m H IH]; [lra |].
  simpl. pose proof (pow2_pos m). lra.
Qed.

Lemma pow2_gt_nat (n : nat) : inject_Z (Z.of_nat n) < pow2 n.
Proof.
  induction n as [| n IH].
  - reflexivity.
  - rewrite Nat2Z.inj_succ. unfold Z.succ. rewrite inject_Z_plus.
    simpl pow2. pose proof (pow2_pos n). change (inject_Z 1) with 1. lra.
Qed.

Lemma pow2_unbounded (v : Q) : exists n, v < pow2 n.
Proof.
  exists (Z.to_nat (Qceiling v)).
  destruct (Z.le_gt_cases 0 (Qceiling v)) as [H | H].
  - apply Qle_lt_trans with (inject_Z (Qceiling v)); [apply Qle_ceiling |].
    rewrite <- (Z2Nat.id (Qceiling v)) at 1 by exact H.
    apply pow2_gt_nat.
  - apply Qle_lt_trans with (inject_Z (Qceiling v)); [apply Qle_ceiling |].
    apply Qlt_le_trans with 1; [| apply pow2_pos].
    assert (H0 : inject_Z (Qceiling v) < inject_Z 0)
      by (rewrite <- Zlt_Qlt; lia).
    change (inject_Z 0) with 0 in H0. lra.
Qed.

Lemma scaled_gap_x (W a b u v : Q) :
  a < b -> W * (u - a) / (b - a) - W * (v - a) / (b - a) == W * (u - v) / (b - a).
Proof. intro H. field. lra. Qed.

Lemma scaled_gap_y (H c d u v : Q) :
  c < d -> H * (d - u) / (d - c) - H * (d - v) / (d - c) == H * (v - u) / (d - c).
Proof. intro Hcd. field. lra. Qed.

Lemma gap_small (W Wm t g P : Q) :
  0 < W -> W <= Wm -> 0 < g -> Wm * Qabs t < P * g -> Qabs (W * t / g) < P.
Proof.
  intros HW HWm Hg Hb.
  pose proof (Qabs_nonneg t) as Ht0.
  pose proof (Qle_Qabs t) as Ht1.
  pose proof (Qle_Qabs (- t)) as Ht2. rewrite Qabs_opp in Ht2.
  assert (H1 : W * Qabs t <= Wm * Qabs t) by (apply Qmult_le_compat_r; assumption).
  assert (H2 : W * t <= W * Qabs t) by (apply Qmult_le_l; assumption).
  assert (H3 : W * - t <= W * Qabs t) by (apply Qmult_le_l; assumption).
  apply Qabs_Qlt_condition. split.
  - apply Qlt_shift_div_l; [exact Hg |]. lra.
  - apply Qlt_shift_div_r; [exact Hg |]. lra.
Qed.

Lemma half_gap_left (u v : Q) : Qabs (u - (u + v) / 2) == Qabs (u - v) / 2.
Proof.
  assert (E : u - (u + v) / 2 == (u - v) * (1 # 2)) by field.
  rewrite E, Qabs_Qmult. simpl (Qabs (1 # 2)). field.
Qed.

Lemma half_gap_right (u v : Q) : Qabs ((u + v) / 2 - v) == Qabs (u - v) / 2.
Proof.
  assert (E : (u + v) / 2 - v == (u - v) * (1 # 2)) by field.
  rewrite E, Qabs_Qmult. simpl (Qabs (1 # 2)). field.
Qed.

Lemma make_sure_window_created_canvas (s : State) :
  let s' := snd (_make_sure_window_created s) in
  (_canvasWidth s' = _canvasWidth s \/ _canvasWidth s' = 512) /\
  (_canvasHeight s' = _canvasHeight s \/ _canvasHeight s' = 512) /\
  exists calls, pygame_log s' = (pygame_log s ++ calls)%list /\
                Forall filledCircle_call calls.
Proof.
  unfold _make_sure_window_created, set_canvas_size, bind, read.
  destruct (_windowCreated s) eqn:E.
  - simpl. repeat split; try (now left).
    exists []. split; [now rewrite app_nil_r | constructor].
  - rewrite E. simpl. repeat split; try (now right).
    eexists. repeat rewrite <- app_assoc. split; [reflexivity |].
    repeat constructor.
Qed.

Section ThickLine.
Variables a b c d Wm Hm : Q.
Hypothesis Hab : a < b.
Hypothesis Hcd : c < d.
Hypothesis HWm : 512 <= Wm.
Hypothesis HHm : 512 <= Hm.

Lemma make_sure_window_created_env (s : State) :
  line_env a b c d Wm Hm s -> line_env a b c d Wm Hm (snd (_make_sure_window_created s)).
Proof.
  intros (Ha & Hb & Hc & Hd & HW & HWle & HH & HHle).
  destruct (make_sure_window_created_frame s)
    as (Ea & Eb & Ec & Ed & _).
  destruct (make_sure_window_created_canvas s) as (EW & EH & _).
  unfold line_env. rewrite Ea, Eb, Ec, Ed.
  destruct EW as [EW | EW]; destruct EH as [EH | EH]; rewrite EW, EH;
    repeat split; try assumption; lra.
Qed.

Lemma filledCircle_env (s : State) (x y r : Q) :
  line_env a b c d Wm Hm s ->
  exists s' calls,
    filledCircle x y r s = (Returns tt, s') /\ line_env a b c d Wm Hm s' /\
    pygame_log s' = (pygame_log s ++ calls)%list /\
    calls <> [] /\ Forall filledCircle_call calls.
Proof.
  intro Hs.
  pose proof (make_sure_window_created_env s Hs) as Hs1.
  destruct (make_sure_window_created_canvas s) as (_ & _ & calls & Hl & Hf).
  destruct (make_sure_window_created_frame s) as (_&_&_&_&_&_&_&_&_&_&_&Hcr).
  set (s1 := snd (_make_sure_window_created s)) in *.
  destruct Hs1 as (Ha & Hb & Hc & Hd & HW & HWle & HH & HHle).
  assert (Hx : ~ b - a == 0) by lra.
  assert (Hy : ~ d - c == 0) by lra.
  unfold filledCircle, bind, float.
  rewrite (make_sure_window_created_eq s). fold s1.
  rewrite (_factor_x_returns s1 a b _ Ha Hb Hx),
          (_factor_y_returns s1 c d _ Hc Hd Hy).
  match goal with |- context [if ?t then _ else _] => destruct t end.
  - unfold _pixel, bind.
    rewrite (make_sure_window_created_again s1 Hcr).
    rewrite (_scale_x_returns s1 a b _ Ha Hb Hx),
            (_scale_y_returns s1 c d _ Hc Hd Hy).
    unfold read, pygame.
    do 2 eexists. split; [reflexivity |].
    split; [unfold line_env; simpl; tauto |].
    simpl. rewrite Hl, <- app_assoc.
    split; [reflexivity |].
    split; [now destruct calls |].
    apply Forall_app. split; [exact Hf | repeat constructor].
  - rewrite (_scale_x_returns s1 a b _ Ha Hb Hx),
            (_scale_y_returns s1 c d _ Hc Hd Hy).
    unfold read, pygame.
    do 2 eexists. split; [reflexivity |].
    split; [unfold line_env; simpl; tauto |].
    simpl. rewrite Hl, <- app_assoc.
    split; [reflexivity |].
    split; [now destruct calls |].
    apply Forall_app. split; [exact Hf | repeat constructor].
Qed.

Lemma thick_line_unfold (fuel : nat) (s : State) (x0 y0 x1 y1 r : Q) :
  line_env a b c d Wm Hm s ->
  _thick_line fuel x0 y0 x1 y1 r s
  = if Qltb (Qabs (_canvasWidth s * (x0 - a) / (b - a)
                   - _canvasWidth s * (x1 - a) / (b - a))) 1
       && Qltb (Qabs (_canvasHeight s * (d - y0) / (d - c)
                      - _canvasHeight s * (d - y1) / (d - c))) 1
    then filledCircle x0 y0 r s
    else match fuel with
         | O => (OutOfFuel, s)
         | S fuel' =>
             bind (_thick_line fuel' x0 y0 ((x0 + x1) / 2) ((y0 + y1) / 2) r)
                  (fun _ => _thick_line fuel' ((x0 + x1) / 2)
                                        ((y0 + y1) / 2) x1 y1 r) s
         end.
Proof.
  intros (Ha & Hb & Hc & Hd & _).
  assert (Hx : ~ b - a == 0) by lra.
  assert (Hy : ~ d - c == 0) by lra.
  destruct fuel; cbn [_thick_line];
    rewrite (bind_returns _ _ _ _ _ (_scale_x_returns s a b x0 Ha Hb Hx)),
            (bind_returns _ _ _ _ _ (_scale_y_returns s c d y0 Hc Hd Hy)),
            (bind_returns _ _ _ _ _ (_scale_x_returns s a b x1 Ha Hb Hx)),
            (bind_returns _ _ _ _ _ (_scale_y_returns s c d y1 Hc Hd Hy));
    match goal with |- context [if ?t then _ else _] => destruct t end;
    reflexivity.
Qed.

Lemma thick_line_returns (fuel : nat) :
  forall s x0 y0 x1 y1 r,
    line_env a b c d Wm Hm s ->
    Wm * Qabs (x0 - x1) < pow2 fuel * (b - a) ->
    Hm * Qabs (y0 - y1) < pow2 fuel * (d - c) ->
    exists s' calls,
      _thick_line fuel x0 y0 x1 y1 r s = (Returns tt, s') /\ line_env a b c d Wm Hm s' /\
      pygame_log s' = (pygame_log s ++ calls)%list /\
      calls <> [] /\ Forall filledCircle_call calls.
Proof.
  induction fuel as [| fuel IH]; intros s x0 y0 x1 y1 r Hs Bx By;
    rewrite (thick_line_unfold _ s x0 y0 x1 y1 r Hs).
  - destruct Hs as (Ha & Hb & Hc & Hd & HW & HWle & HH & HHle).
    assert (Ex : Qltb (Qabs (_canvasWidth s * (x0 - a) / (b - a)
                             - _canvasWidth s * (x1 - a) / (b - a))) 1 = true).
    { apply Qltb_lt. rewrite scaled_gap_x by exact Hab.
      apply gap_small with Wm; try assumption; lra. }
    assert (Ey : Qltb (Qabs (_canvasHeight s * (d - y0) / (d - c)
                             - _canvasHeight s * (d - y1) / (d - c))) 1 = true).
    { apply Qltb_lt. rewrite scaled_gap_y by exact Hcd.
      apply gap_small with Hm; try assumption; try lra.
      rewrite <- Qabs_opp.
      assert (E : - (y1 - y0) == y0 - y1) by ring.
      rewrite E. exact By. }
    rewrite Ex, Ey. simpl andb. cbv iota.
    apply filledCircle_env. unfold line_env. tauto.
  - match goal with |- context [if ?t then _ else _] => destruct t end.
    + now apply filledCircle_env.
    + simpl pow2 in Bx, By.
      destruct (IH s x0 y0 ((x0 + x1) / 2) ((y0 + y1) / 2) r Hs)
        as (s1 & calls1 & H1 & Hs1 & L1 & N1 & F1).
      { rewrite half_gap_left.
        apply Qmult_lt_r with 2; [lra |].
        assert (E : Wm * (Qabs (x0 - x1) / 2) * 2 == Wm * Qabs (x0 - x1))
          by field.
        rewrite E. lra. }
      { rewrite half_gap_left.
        apply Qmult_lt_r with 2; [lra |].
        assert (E : Hm * (Qabs (y0 - y1) / 2) * 2 == Hm * Qabs (y0 - y1))
          by field.
        rewrite E. lra. }
      destruct (IH s1 ((x0 + x1) / 2) ((y0 + y1) / 2) x1 y1 r Hs1)
        as (s2 & calls2 & H2 & Hs2 & L2 & N2 & F2).
      { rewrite half_gap_right.
        apply Qmult_lt_r with 2; [lra |].
        assert (E : Wm * (Qabs (x0 - x1) / 2) * 2 == Wm * Qabs (x0 - x1))
          by field.
        rewrite E. lra. }
      { rewrite half_gap_right.
        apply Qmult_lt_r with 2; [lra |].
        assert (E : Hm * (Qabs (y0 - y1) / 2) * 2 == Hm * Qabs (y0 - y1))
          by field.
        rewrite E. lra. }
      exists s2, (calls1 ++ calls2)%list.
      unfold bind. rewrite H1, H2.
      split; [reflexivity |]. split; [exact Hs2 |].
      split; [now rewrite L2, L1, app_assoc |].
      split; [now destruct calls1 |].
      apply Forall_app. now split.
Qed.
End ThickLine.

Lemma pow2_times_unbounded (v g : Q) :
  0 < g -> exists n, forall m, (n <= m)%nat -> v < pow2 m * g.
Proof.
  intro Hg. destruct (pow2_unbounded (v / g)) as [n Hn].
  exists n. intros m Hm. apply pow2_le in Hm.
  assert (E : v == v / g * g) by (field; lra).
  rewrite E. apply Qmult_lt_r; [exact Hg | lra].
Qed.

(** In exact arithmetic, with [_xmin < _xmax], [_ymin < _ymax] and positive
    canvas dimensions, [_thick_line(x0, y0, x1, y1, r)] returns: there is a
    depth of recursion that it never exceeds, and what it issues to the
    toolkit is a non-empty run of calls made by [filledCircle].  (Each level
    halves the gap between the scaled endpoints, until both gaps are below
    one pixel.  On floats the midpoint of two neighbouring numbers is one of
    them and the gap is not halved: see the last part of the file.) *)
Theorem thick_line_terminates (s : State) (x0 y0 x1 y1 r : Q) :
  scale_ok s ->
  exists depth, forall fuel, (depth <= fuel)%nat ->
    exists s' calls,
      _thick_line fuel x0 y0 x1 y1 r s = (Returns tt, s') /\
      pygame_log s' = (pygame_log s ++ calls)%list /\
      calls <> [] /\ Forall filledCircle_call calls.
Proof.
  intros ((a & b & Ha & Hb & Hab) & (c & d & Hc & Hd & Hcd) & HW & HH).
  set (Wm := _canvasWidth s + 512).
  set (Hm := _canvasHeight s + 512).
  destruct (pow2_times_unbounded (Wm * Qabs (x0 - x1)) (b - a)) as [n1 H1];
    [lra |].
  destruct (pow2_times_unbounded (Hm * Qabs (y0 - y1)) (d - c)) as [n2 H2];
    [lra |].
  exists (Nat.max n1 n2). intros fuel Hf.
  destruct (thick_line_returns a b c d Wm Hm Hab Hcd) with
    (fuel := fuel) (s := s) (x0 := x0) (y0 := y0) (x1 := x1) (y1 := y1) (r := r)
    as (s' & calls & H & _ & L & N & F).
  - unfold Wm. lra.
  - unfold Hm. lra.
  - unfold line_env, Wm, Hm. repeat split; try assumption; lra.
  - apply H1. lia.
  - apply H2. lia.
  - exists s', calls. tauto.
Qed.

Lemma thick_line_terminates_witness :
  exists depth, forall fuel, (depth <= fuel)%nat ->
    exists s' calls,
      _thick_line fuel 0 0 (1 # 64) 0 (1 # 100) (initial_state [] [])
      = (Returns tt, s') /\
      pygame_log s' = (pygame_log (initial_state [] []) ++ calls)%list /\
      calls <> [] /\ Forall filledCircle_call calls.
Proof.
  apply (thick_line_terminates (initial_state [] []) 0 0 (1 # 64) 0 (1 # 100)).
  unfold scale_ok. simpl.
  split; [| split; [| split]].
  - exists (0 - 0 * (1 - 0)), (1 + 0 * (1 - 0)).
    split; [reflexivity | split; reflexivity].
  - exists (0 - 0 * (1 - 0)), (1 + 0 * (1 - 0)).
    split; [reflexivity | split; reflexivity].
  - reflexivity.
  - reflexivity.
Defined.

(** A segment 8 pixels long: four levels of halving, sixteen discs. *)
Example thick_line_eight_pixels :
  fst (_thick_line 4 0 0 (1 # 64) 0 (1 # 100) (initial_state [] []))
  = Returns tt /\
  fst (_thick_line 3 0 0 (1 # 64) 0 (1 # 100) (initial_state [] []))
  = OutOfFuel /\
  List.length
    (pygame_log
       (snd (_thick_line 4 0 0 (1 # 64) 0 (1 # 100) (initial_state [] []))))
  = (1 + 4 + 16)%nat.
Proof. vm_compute. repeat split. Qed.

(** ** The pen radius and the canvas *)



(** * Further properties of the module *)

(** ** Orientation of the canvas *)

Lemma scaled_lt (W g u v : Q) :
  0 < W -> 0 < g -> u < v -> W * u / g < W * v / g.
Proof.
  intros HW Hg Huv. unfold Qdiv.
  apply Qmult_lt_compat_r; [now apply Qinv_lt_0_compat |].
  apply Qmult_lt_l; assumption.
Qed.

(** X1. In exact arithmetic (the rationals of the model, without the
    rounding of the code's floats): with valid bounds and a positive canvas,
    [_scale_x] sends [_xmin] to pixel column 0 and [_xmax] to the canvas
    width and is increasing, while [_scale_y] sends [_ymax] to row 0 and
    [_ymin] to the canvas height and is decreasing: the y axis of the user
    points up, that of the canvas down. *)
Theorem scale_orientation (s : State) (a b c d : Q) :
  _xmin s = Some a -> _xmax s = Some b -> _ymin s = Some c ->
  _ymax s = Some d -> a < b -> c < d ->
  0 < _canvasWidth s -> 0 < _canvasHeight s ->
  (exists p0 p1 q0 q1,
      _scale_x a s = (Returns p0, s) /\ _scale_x b s = (Returns p1, s) /\
      _scale_y d s = (Returns q0, s) /\ _scale_y c s = (Returns q1, s) /\
      p0 == 0 /\ p1 == _canvasWidth s /\ q0 == 0 /\ q1 == _canvasHeight s) /\
  (forall x x', x < x' ->
     exists p p', _scale_x x s = (Returns p, s) /\
                  _scale_x x' s = (Returns p', s) /\ p < p') /\
  (forall y y', y < y' ->
     exists q q', _scale_y y s = (Returns q, s) /\
                  _scale_y y' s = (Returns q', s) /\ q' < q).
Proof.
  intros Ha Hb Hc Hd Hab Hcd HW HH.
  assert (Hx : ~ b - a == 0) by lra.
  assert (Hy : ~ d - c == 0) by lra.
  split; [| split].
  - do 4 eexists.
    rewrite !(_scale_x_returns s a b _ Ha Hb Hx),
            !(_scale_y_returns s c d _ Hc Hd Hy).
    repeat (split; [reflexivity |]).
    repeat split; field; lra.
  - intros x x' Hlt. do 2 eexists.
    rewrite !(_scale_x_returns s a b _ Ha Hb Hx).
    repeat (split; [reflexivity |]).
    apply scaled_lt; lra.
  - intros y y' Hlt. do 2 eexists.
    rewrite !(_scale_y_returns s c d _ Hc Hd Hy).
    repeat (split; [reflexivity |]).
    apply scaled_lt; lra.
Qed.

Lemma scale_orientation_witness :
  exists q q',
    _scale_y (1 # 4) (initial_state [] []) = (Returns q, initial_state [] []) /\
    _scale_y (3 # 4) (initial_state [] []) = (Returns q', initial_state [] []) /\
    q' < q.
Proof.
  refine (proj2 (proj2 (scale_orientation (initial_state [] [])
            (0 - 0 * (1 - 0)) (1 + 0 * (1 - 0))
            (0 - 0 * (1 - 0)) (1 + 0 * (1 - 0)) _ _ _ _ _ _ _ _))
            (1 # 4) (3 # 4) _);
    reflexivity.
Defined.

(** X2. In exact arithmetic (the rationals of the model, without the
    rounding of the code's floats): [_factor_x] and [_factor_y] scale
    lengths as [_scale_x] and [_scale_y] scale positions: a horizontal
    extent [w] from [x] is [_factor_x(w)] pixels wide, a vertical extent [h]
    from [y] is [_factor_y(h)] pixels high (upwards on the canvas). *)
Theorem factor_is_scaled_extent (s : State) (a b c d : Q) :
  _xmin s = Some a -> _xmax s = Some b -> _ymin s = Some c ->
  _ymax s = Some d -> a < b -> c < d ->
  (forall x w, exists p p' f,
      _scale_x x s = (Returns p, s) /\ _scale_x (x + w) s = (Returns p', s) /\
      _factor_x w s = (Returns f, s) /\ p' - p == f) /\
  (forall y h, exists q q' f,
      _scale_y y s = (Returns q, s) /\ _scale_y (y + h) s = (Returns q', s) /\
      _factor_y h s = (Returns f, s) /\ q - q' == f).
Proof.
  intros Ha Hb Hc Hd Hab Hcd.
  assert (Hx : ~ b - a == 0) by lra.
  assert (Hy : ~ d - c == 0) by lra.
  assert (Ex : Qabs (b - a) == b - a) by (apply Qabs_pos; lra).
  assert (Ey : Qabs (d - c) == d - c) by (apply Qabs_pos; lra).
  split.
  - intros x w. do 3 eexists.
    rewrite !(_scale_x_returns s a b _ Ha Hb Hx),
            (_factor_x_returns s a b _ Ha Hb Hx).
    repeat (split; [reflexivity |]).
    rewrite Ex. field. lra.
  - intros y h. do 3 eexists.
    rewrite !(_scale_y_returns s c d _ Hc Hd Hy),
            (_factor_y_returns s c d _ Hc Hd Hy).
    repeat (split; [reflexivity |]).
    rewrite Ey. field. lra.
Qed.

Lemma factor_is_scaled_extent_witness :
  exists p p' f,
    _scale_x (1 # 4) (initial_state [] []) = (Returns p, initial_state [] []) /\
    _scale_x ((1 # 4) + (1 # 2)) (initial_state [] [])
    = (Returns p', initial_state [] []) /\
    _factor_x (1 # 2) (initial_state [] []) = (Returns f, initial_state [] []) /\
    p' - p == f.
Proof.
  refine (proj1 (factor_is_scaled_extent (initial_state [] [])
            (0 - 0 * (1 - 0)) (1 + 0 * (1 - 0))
            (0 - 0 * (1 - 0)) (1 + 0 * (1 - 0)) _ _ _ _ _ _)
            (1 # 4) (1 # 2));
    reflexivity.
Defined.

(** ** The coordinate conversions never raise *)


Lemma steady_usable {A} (m : M A) (s : State) :
  steady m -> usable s -> usable (snd (m s)).
Proof.
  intros Hm (Hr & Hw & Hh). destruct (Hm s) as (_ & H1 & H2 & H3).
  unfold usable. tauto.
Qed.



(** ** What drawing leaves alone *)

Lemma drawn_on_refl (s : State) : drawn_on s s.
Proof.
  unfold drawn_on. repeat split; try tauto.
  exists []. now rewrite app_nil_r.
Qed.

Lemma drawn_on_trans (s1 s2 s3 : State) :
  drawn_on s1 s2 -> drawn_on s2 s3 -> drawn_on s1 s3.
Proof.
  unfold drawn_on.
  intros (A1&A2&A3&A4&A5&A6&A7&A8&A9&A10&A11&A12&A13&A14&l1&A15)
         (B1&B2&B3&B4&B5&B6&B7&B8&B9&B10&B11&B12&B13&B14&l2&B15).
  assert (C : _windowCreated s1 = true ->
              _windowCreated s3 = true /\ _canvasWidth s3 = _canvasWidth s1 /\
              _canvasHeight s3 = _canvasHeight s1).
  { intro H. destruct (A14 H) as (C1 & C2 & C3).
    destruct (B14 C1) as (D1 & D2 & D3). repeat split; congruence. }
  assert (L : exists calls, pygame_log s3 = (pygame_log s1 ++ calls)%list).
  { exists (l1 ++ l2)%list. now rewrite B15, A15, app_assoc. }
  repeat (split; [congruence |]). split; assumption.
Qed.

Lemma framed_bind {A B} (m : M A) (k : A -> M B) :
  framed m -> (forall a, framed (k a)) -> framed (bind m k).
Proof.
  intros Hm Hk s. unfold bind. specialize (Hm s).
  destruct (m s) as [[a | e |] s']; simpl in *; try assumption.
  eapply drawn_on_trans; [exact Hm | apply Hk].
Qed.

Lemma framed_ret {A} (a : A) : framed (ret a).
Proof. intro s. apply drawn_on_refl. Qed.
Lemma framed_raise {A} (e : exn) : framed (@raise A e).
Proof. intro s. apply drawn_on_refl. Qed.
Lemma framed_out_of_fuel {A} : framed (@out_of_fuel A).
Proof. intro s. apply drawn_on_refl. Qed.
Lemma framed_read {A} (g : State -> A) : framed (read g).
Proof. intro s. apply drawn_on_refl. Qed.
Lemma framed_number (g : State -> option Q) : framed (number g).
Proof. intro s. unfold number. destruct (g s); apply drawn_on_refl. Qed.
Lemma framed_div (a b : Q) : framed (div a b).
Proof. unfold div. destruct (Qeq_bool b 0); intro s; apply drawn_on_refl. Qed.
Lemma framed_pygame (c : pygame_call) : framed (pygame c).
Proof.
  intro s. unfold drawn_on. simpl. repeat split; try tauto.
  now exists [c].
Qed.

Lemma framed_pygame_draw_polygon c points w :
  framed (pygame_draw_polygon c points w).
Proof.
  unfold pygame_draw_polygon.
  destruct (List.length points <? 3)%nat;
    [apply framed_raise | apply framed_pygame].
Qed.

Lemma framed_pygame_image_save f : framed (pygame_image_save f).
Proof.
  intro s. unfold pygame_image_save.
  destruct (image_save_errors s) as [| [msg |] rest];
    unfold drawn_on; simpl; repeat split; try tauto;
    now exists [image_save f].
Qed.

Lemma framed_make_sure_window_created : framed _make_sure_window_created.
Proof.
  intro s. unfold _make_sure_window_created, set_canvas_size, bind, read.
  destruct (_windowCreated s) eqn:E; [apply drawn_on_refl |].
  rewrite E. unfold drawn_on. simpl. rewrite E.
  repeat split; try discriminate.
  eexists. repeat rewrite <- app_assoc. reflexivity.
Qed.

Create HintDb framed discriminated.
#[local] Hint Resolve framed_pygame_draw_polygon framed_pygame_image_save
  : framed.
#[local] Hint Resolve framed_ret framed_raise framed_out_of_fuel framed_read
  framed_number framed_div framed_pygame framed_make_sure_window_created
  : framed.

Ltac framed_step :=
  cbv zeta;
  match goal with
  | |- framed (bind _ _) => apply framed_bind; [| intros ?]
  | |- framed (if ?b then _ else _) => destruct b
  | |- framed (match ?x with _ => _ end) => destruct x
  | |- framed _ => solve [auto with framed]
  end.
Ltac framed := repeat framed_step.

Lemma framed_scale_x x : framed (_scale_x x).
Proof. unfold _scale_x. framed. Qed.
Lemma framed_scale_y y : framed (_scale_y y).
Proof. unfold _scale_y. framed. Qed.
Lemma framed_factor_x w : framed (_factor_x w).
Proof. unfold _factor_x. framed. Qed.
Lemma framed_factor_y h : framed (_factor_y h).
Proof. unfold _factor_y. framed. Qed.
#[local] Hint Resolve framed_scale_x framed_scale_y framed_factor_x
  framed_factor_y : framed.

Lemma framed_pixel x y : framed (_pixel x y).
Proof. unfold _pixel. framed. Qed.
#[local] Hint Resolve framed_pixel : framed.
Lemma framed_point x y : framed (point x y).
Proof. unfold point. framed. Qed.
Lemma framed_circle x y r : framed (circle x y r).
Proof. unfold circle. framed. Qed.
Lemma framed_filledCircle x y r : framed (filledCircle x y r).
Proof. unfold filledCircle. framed. Qed.
Lemma framed_rectangle x y w h : framed (rectangle x y w h).
Proof. unfold rectangle. framed. Qed.
Lemma framed_filledRectangle x y w h : framed (filledRectangle x y w h).
Proof. unfold filledRectangle. framed. Qed.
#[local] Hint Resolve framed_point framed_circle framed_filledCircle
  framed_rectangle framed_filledRectangle : framed.

Lemma framed_thick_line fuel : forall x0 y0 x1 y1 r,
  framed (_thick_line fuel x0 y0 x1 y1 r).
Proof. induction fuel as [| fuel IH]; intros; simpl; framed. Qed.
#[local] Hint Resolve framed_thick_line : framed.

Lemma framed_line fuel x0 y0 x1 y1 : framed (line fuel x0 y0 x1 y1).
Proof. unfold line. framed. Qed.
Lemma framed_square x y r : framed (square x y r).
Proof. unfold square. framed. Qed.
Lemma framed_filledSquare x y r : framed (filledSquare x y r).
Proof. unfold filledSquare. framed. Qed.

Lemma framed_for_each {A B} (f : A -> M B) (l : list A) :
  (forall a, framed (f a)) -> framed (for_each f l).
Proof. intro Hf. induction l as [| a l IH]; simpl; framed. Qed.

Lemma framed_pair_points xs : forall ys, framed (pair_points xs ys).
Proof. induction xs as [| x xs IH]; intros ys; simpl; framed. Qed.
Lemma framed_first_point xs ys : framed (first_point xs ys).
Proof. unfold first_point. framed. Qed.
#[local] Hint Resolve framed_pair_points framed_first_point : framed.

Lemma framed_polygon x y : framed (polygon x y).
Proof.
  unfold polygon. framed; apply framed_for_each; intro; auto with framed.
Qed.
Lemma framed_filledPolygon x y : framed (filledPolygon x y).
Proof.
  unfold filledPolygon. framed; apply framed_for_each; intro; auto with framed.
Qed.
Lemma framed_text x y t : framed (text x y t).
Proof. unfold text. framed. Qed.
Lemma framed_picture pic x y : framed (picture pic x y).
Proof. unfold picture. framed. Qed.
Lemma framed_clear c : framed (clear c).
Proof. unfold clear. framed. Qed.
Lemma framed_save f : framed (save f).
Proof. unfold save. framed. Qed.

#[local] Hint Resolve framed_line framed_square framed_filledSquare
  framed_polygon framed_filledPolygon framed_text framed_picture framed_clear
  framed_save : framed.

(** X4. A drawing call (shape, line, polygon, text, picture, clear, save),
    however it ends, changes no setting: scale bounds, pen, font, key queue
    and mouse state are as before, no pending event is consumed, the
    toolkit log only grows, and an existing window keeps its size. *)
Theorem drawing_changes_no_setting (fuel : nat) (op : Op) (s : State) :
  draws op = true -> drawn_on s (snd (call fuel op s)).
Proof.
  intro H. destruct op; try discriminate H; unfold call;
    match goal with
    | |- drawn_on s (snd (?m s)) =>
        let F := fresh in assert (F : framed m) by auto with framed; apply F
    end.
Qed.

Lemma drawing_changes_no_setting_witness :
  drawn_on (initial_state [] [])
           (snd (call 5 (call_line 0 0 1 1) (initial_state [] []))).
Proof.
  apply (drawing_changes_no_setting 5 (call_line 0 0 1 1) (initial_state [] [])).
  reflexivity.
Defined.

(** ** The window is there once something was drawn or shown *)

Lemma make_sure_first_opens {A} (k : unit -> M A) (s : State) :
  (forall u, steady (k u)) ->
  _windowCreated (snd (bind _make_sure_window_created k s)) = true.
Proof.
  intro Hk. unfold bind.
  rewrite (make_sure_window_created_eq s).
  destruct (make_sure_window_created_frame s) as (_&_&_&_&_&_&_&_&_&_&_&Hc).
  now apply (Hk tt (snd (_make_sure_window_created s))).
Qed.

(** X5. After any drawing call, and after [show], the window exists,
    however the call ended; so a [set_canvas_size] that comes after raises
    and changes nothing: the canvas size can only be chosen first. *)
Theorem canvas_size_only_before_drawing
        (fuel : nat) (op : Op) (s : State) (w h : Q) :
  draws op = true \/ (exists msec, op = call_show msec) ->
  _windowCreated (snd (call fuel op s)) = true /\
  set_canvas_size w h (snd (call fuel op s))
  = (Raises (Exception "The stddraw window already was created"),
     snd (call fuel op s)).
Proof.
  intro H.
  assert (Hc : _windowCreated (snd (call fuel op s)) = true).
  { destruct H as [H | [msec ->]].
    - destruct op; try discriminate H; unfold call;
        match goal with
        | |- context [?f] =>
            match f with
            | point => unfold point | line => unfold line
            | circle => unfold circle | filledCircle => unfold filledCircle
            | rectangle => unfold rectangle
            | filledRectangle => unfold filledRectangle
            | square => unfold square | filledSquare => unfold filledSquare
            | polygon => unfold polygon | filledPolygon => unfold filledPolygon
            | text => unfold text | picture => unfold picture
            | clear => unfold clear | save => unfold save
            end
        end;
        apply make_sure_first_opens; intros; steady;
        try (apply steady_for_each; intro; auto with steady).
    - unfold call, show, _showAndWaitForever. destruct msec;
        apply make_sure_first_opens; intros; steady. }
  split; [exact Hc |].
  unfold set_canvas_size, bind, read. now rewrite Hc.
Qed.

Lemma canvas_size_only_before_drawing_witness :
  set_canvas_size 300 200
    (snd (call 0 (call_circle (1 # 2) (1 # 2) (1 # 4)) (initial_state [] [])))
  = (Raises (Exception "The stddraw window already was created"),
     snd (call 0 (call_circle (1 # 2) (1 # 2) (1 # 4)) (initial_state [] []))).
Proof.
  refine (proj2 (canvas_size_only_before_drawing 0
            (call_circle (1 # 2) (1 # 2) (1 # 4)) (initial_state [] [])
            300 200 _)).
  left. reflexivity.
Defined.

(** ** Polygons *)












Example triangle_is_closed :
  exists w,
    pygame_log (snd (polygon [4 # 10; 5 # 10; 6 # 10] [7 # 10; 8 # 10; 7 # 10]
                             (snd (clear WHITE (initial_state [] [])))))
    = [font_init; display_set_mode 512 512;
       display_set_caption "stddraw window (r-click to save)";
       Surface_new 512 512; Surface_fill (pygame_Color_rgb 255 255 255);
       Surface_fill (pygame_Color_rgb 255 255 255);
       draw_polygon (pygame_Color_rgb 0 0 0) w 3] /\
    List.length w = 4%nat /\ hd_error w = Some (last w (0, 0)).
Proof. eexists. vm_compute. repeat split. Qed.

Example single_vertex_is_refused :
  fst (filledPolygon [1 # 2] [1 # 2] (initial_state [] [])) = Raises ValueError.
Proof. reflexivity. Qed.

(** ** Lines *)

Lemma usable_scale_ok (s : State) : usable s -> scale_ok s.
Proof.
  intros ((Hx & Hy & _) & Hw & Hh). unfold scale_ok.
  repeat split; try assumption; lra.
Qed.

Lemma thick_line_depth (s : State) (x0 y0 x1 y1 r : Q) :
  scale_ok s ->
  exists depth, forall fuel, (depth <= fuel)%nat ->
    fst (_thick_line fuel x0 y0 x1 y1 r s) = Returns tt.
Proof.
  intros ((a & b & Ha & Hb & Hab) & (c & d & Hc & Hd & Hcd) & HW & HH).
  destruct (pow2_times_unbounded
              ((_canvasWidth s + 512) * Qabs (x0 - x1)) (b - a)) as [n1 H1];
    [lra |].
  destruct (pow2_times_unbounded
              ((_canvasHeight s + 512) * Qabs (y0 - y1)) (d - c)) as [n2 H2];
    [lra |].
  exists (Nat.max n1 n2). intros fuel Hf.
  destruct (thick_line_returns a b c d (_canvasWidth s + 512)
              (_canvasHeight s + 512) Hab Hcd) with
    (fuel := fuel) (s := s) (x0 := x0) (y0 := y0) (x1 := x1) (y1 := y1) (r := r)
    as (s' & calls & H & _); try lra.
  - unfold line_env. repeat split; try assumption; lra.
  - apply H1. lia.
  - apply H2. lia.
  - now rewrite H.
Qed.



Example hairline_has_width_one :
  pygame_log (snd (line 0 (1 # 10) (1 # 10) (3 # 10) (3 # 10)
                     (snd (set_pen_radius 0
                             (snd (clear WHITE (initial_state [] [])))))))
  = [font_init; display_set_mode 512 512;
     display_set_caption "stddraw window (r-click to save)";
     Surface_new 512 512; Surface_fill (pygame_Color_rgb 255 255 255);
     Surface_fill (pygame_Color_rgb 255 255 255);
     draw_line (pygame_Color_rgb 0 0 0)
               (512 # 10, 4608 # 10) (1536 # 10, 3584 # 10) 1].
Proof. vm_compute. reflexivity. Qed.

(** ** Events and showing *)

Lemma returns_or_exits_bind {A B} (m : M A) (k : A -> M B) :
  returns_or_exits m -> (forall a, returns_or_exits (k a)) ->
  returns_or_exits (bind m k).
Proof.
  intros Hm Hk s. unfold bind. specialize (Hm s).
  destruct (m s) as [[a | e |] s']; simpl in *.
  - apply Hk.
  - right. destruct Hm as [[a H] | H]; [discriminate | now injection H as ->].
  - destruct Hm as [[a H] | H]; discriminate.
Qed.

Lemma returns_or_exits_ret {A} (a : A) : returns_or_exits (ret a).
Proof. intro s. left. now exists a. Qed.
Lemma returns_or_exits_read {A} (g : State -> A) : returns_or_exits (read g).
Proof. intro s. left. now exists (g s). Qed.
Lemma returns_or_exits_assign {A} (set : A -> State -> State) (v : A) :
  returns_or_exits (assign set v).
Proof. intro s. left. now exists tt. Qed.
Lemma returns_or_exits_pygame c : returns_or_exits (pygame c).
Proof. intro s. left. now exists tt. Qed.
Lemma returns_or_exits_exit {A} : returns_or_exits (@raise A SystemExit).
Proof. intro s. now right. Qed.
Lemma returns_or_exits_communicate : returns_or_exits communicate.
Proof.
  intro s. left. unfold communicate.
  destruct (dialog_replies s); eexists; reflexivity.
Qed.
Lemma returns_or_exits_event_get : returns_or_exits pygame_event_get.
Proof.
  intro s. left. unfold pygame_event_get.
  destruct (pygame_events s); eexists; reflexivity.
Qed.
Lemma returns_or_exits_make_sure : returns_or_exits _make_sure_window_created.
Proof.
  intro s. left. exists tt. apply make_sure_window_created_returns.
Qed.

Create HintDb exits discriminated.
#[local] Hint Resolve returns_or_exits_ret returns_or_exits_read
  returns_or_exits_assign returns_or_exits_pygame returns_or_exits_exit
  returns_or_exits_communicate returns_or_exits_event_get
  returns_or_exits_make_sure : exits.

Ltac exits_step :=
  cbv zeta;
  match goal with
  | |- returns_or_exits (bind _ _) => apply returns_or_exits_bind; [| intros ?]
  | |- returns_or_exits (if ?b then _ else _) => destruct b
  | |- returns_or_exits (match ?x with _ => _ end) => destruct x
  | |- returns_or_exits _ => solve [auto with exits]
  end.
Ltac exits := repeat exits_step.

(** [save] ends by returning or by the [pygame.error] of [image.save]. *)
Lemma save_returns_or_pygame_error f (s : State) :
  (exists s', save f s = (Returns tt, s')) \/
  (exists msg s', save f s = (Raises (pygame_error msg), s')).
Proof.
  unfold save.
  rewrite (bind_returns _ _ _ _ _ (make_sure_window_created_eq s)).
  unfold pygame_image_save.
  destruct (image_save_errors _) as [| [msg |] rest].
  - left. eexists. reflexivity.
  - right. do 2 eexists. reflexivity.
  - left. eexists. reflexivity.
Qed.

Lemma returns_or_exits_try_save f (k : M unit) (handler : string -> M unit) :
  returns_or_exits k -> (forall msg, returns_or_exits (handler msg)) ->
  returns_or_exits (try_except_pygame_error (save f ;; k) handler).
Proof.
  intros Hk Hh s. unfold try_except_pygame_error.
  destruct (save_returns_or_pygame_error f s) as [[s' E] | (msg & s' & E)].
  - rewrite (bind_returns _ _ _ _ _ E).
    destruct (Hk s') as [[[] H] | H];
      destruct (k s') as [[[] | e |] s'']; simpl in H; try discriminate.
    + left. now exists tt.
    + right. injection H as ->. reflexivity.
  - rewrite (bind_raises _ _ _ _ _ E). apply Hh.
Qed.

Lemma returns_or_exits_saveToFile : returns_or_exits _saveToFile.
Proof.
  unfold _saveToFile. exits.
  apply returns_or_exits_try_save; intros; auto with exits.
Qed.
#[local] Hint Resolve returns_or_exits_saveToFile : exits.
Lemma returns_or_exits_handle_event e : returns_or_exits (handle_event e).
Proof. unfold handle_event. exits. Qed.
#[local] Hint Resolve returns_or_exits_handle_event : exits.
Lemma returns_or_exits_handle_events evs : returns_or_exits (handle_events evs).
Proof. induction evs as [| e evs IH]; simpl; exits. Qed.
#[local] Hint Resolve returns_or_exits_handle_events : exits.
Lemma returns_or_exits_checkForEvents : returns_or_exits _checkForEvents.
Proof. unfold _checkForEvents. exits. Qed.
#[local] Hint Resolve returns_or_exits_checkForEvents : exits.
Lemma returns_or_exits_show_ : returns_or_exits _show.
Proof. unfold _show. exits. Qed.
#[local] Hint Resolve returns_or_exits_show_ : exits.












Example show_quarter_second :
  show 3 (Some 250) (initial_state [] [])
  = (Returns tt,
     Assign.log [font_init; display_set_mode 512 512;
                 display_set_caption "stddraw window (r-click to save)";
                 Surface_new 512 512;
                 Surface_fill (pygame_Color_rgb 255 255 255);
                 background_blit; display_flip;
                 time_sleep (1 # 10); time_sleep (1 # 10); time_sleep (1 # 10)]
       (Assign.windowCreated true (initial_state [] []))) /\
  fst (show 2 (Some 250) (initial_state [] [])) = OutOfFuel.
Proof. vm_compute. split; reflexivity. Qed.

Lemma handle_events_app (pre : list Event) :
  forall post s s1,
    handle_events pre s = (Returns tt, s1) ->
    handle_events (pre ++ post) s = handle_events post s1.
Proof.
  induction pre as [| e pre IH]; intros post s s1 H.
  - simpl in H. now injection H as <-.
  - cbn [handle_events app] in *. unfold bind in *.
    destruct (handle_event e s) as [[[] | ex |] s']; try discriminate.
    now apply IH.
Qed.

(** X10. A [QUIT] event ends [_checkForEvents] with [SystemExit] as soon as
    it is met: the events before it in the batch have been handled, those
    after it never are, and the batch is gone from the toolkit's queue. *)
Theorem quit_drops_later_events
        (s s1 : State) (pre post : list Event) (rest : list (list Event)) :
  pygame_events s = (pre ++ QUIT :: post) :: rest ->
  handle_events pre (Assign.events rest (snd (_make_sure_window_created s)))
  = (Returns tt, s1) ->
  _checkForEvents s = (Raises SystemExit, s1).
Proof.
  intros He Hpre.
  destruct (make_sure_window_created_frame s) as (_&_&_&_&_&_&_&_&_&He1&_).
  unfold _checkForEvents.
  rewrite (bind_returns _ _ _ _ _ (make_sure_window_created_eq s)).
  unfold bind, pygame_event_get. rewrite He1, He.
  now rewrite (handle_events_app pre (QUIT :: post) _ s1 Hpre).
Qed.

Lemma quit_drops_later_events_witness :
  exists s1,
    _checkForEvents
      (initial_state [[KEYDOWN "a"; QUIT; KEYDOWN "b"]] [])
    = (Raises SystemExit, s1) /\ _keysTyped s1 = ["a"%string].
Proof.
  eexists. split.
  - apply (quit_drops_later_events
             (initial_state [[KEYDOWN "a"; QUIT; KEYDOWN "b"]] []) _
             [KEYDOWN "a"] [KEYDOWN "b"] []).
    + reflexivity.
    + reflexivity.
  - reflexivity.
Defined.

(** ** Saving from the window *)









Example suffix_message_has_quotes :
  String.length suffix_message = 41%nat /\
  String.get 24 suffix_message = Some "034"%char /\
  String.get 29 suffix_message = Some "034"%char /\
  String.get 34 suffix_message = Some "034"%char /\
  String.get 39 suffix_message = Some "034"%char.
Proof. vm_compute. repeat split. Qed.

Example right_click_saves_png :
  pygame_log
    (snd (_checkForEvents
            (initial_state [[MOUSEBUTTONUP 3 (5, 5)%Z]] ["out.png"%string])))
  = [font_init; display_set_mode 512 512;
     display_set_caption "stddraw window (r-click to save)";
     Surface_new 512 512; Surface_fill (pygame_Color_rgb 255 255 255);
     subprocess_Popen ["python"; "stddraw.py"; "getFileName"]%string;
     image_save "out.png";
     subprocess_Popen ["python"; "stddraw.py"; "confirmFileSave"]%string].
Proof. reflexivity. Qed.

Example failed_save_is_reported :
  _checkForEvents
    (Assign.environment [Some "cannot write"%string] "python3" "/lib/stddraw.py"
       (initial_state [[MOUSEBUTTONUP 3 (5, 5)%Z]] ["out.png"%string]))
  = (Returns tt,
     Assign.log
       [font_init; display_set_mode 512 512;
        display_set_caption "stddraw window (r-click to save)";
        Surface_new 512 512; Surface_fill (pygame_Color_rgb 255 255 255);
        subprocess_Popen ["python3"; "/lib/stddraw.py"; "getFileName"]%string;
        image_save "out.png";
        subprocess_Popen ["python3"; "/lib/stddraw.py"; "reportFileSaveError";
                          "cannot write"]%string]
       (Assign.windowCreated true
          (Assign.environment [] "python3" "/lib/stddraw.py"
             (initial_state [] [])))).
Proof. reflexivity. Qed.

(** ** Where shapes land on the canvas *)









(** ** Pictures *)






(** ** The mouse flag and the key queue as a client sees them *)

(** X16. A left click sets the pressed flag and the position; other buttons
    set neither.  [mousePressed()] returns the flag and clears it, so it
    reports a click once: a second call right after returns [False]; it
    leaves the stored position, which [mouseX]/[mouseY] keep reporting. *)
Theorem mousePressed_reports_once (s : State) :
  fst (mousePressed s) = Returns (_mousePressed s) /\
  _mousePressed (snd (mousePressed s)) = false /\
  _mousePos (snd (mousePressed s)) = _mousePos s /\
  fst (mousePressed (snd (mousePressed s))) = Returns false /\
  (forall pos,
      fst (mousePressed (snd (handle_event (MOUSEBUTTONDOWN 1 pos) s)))
      = Returns true /\
      _mousePos (snd (mousePressed
                        (snd (handle_event (MOUSEBUTTONDOWN 1 pos) s))))
      = Some pos) /\
  (forall button pos,
      button <> 1%Z ->
      handle_event (MOUSEBUTTONDOWN button pos) s = (Returns tt, s)).
Proof.
  unfold mousePressed, bind, read.
  destruct (_mousePressed s) eqn:E; simpl; rewrite ?E;
    repeat split; try reflexivity;
    intros button pos Hb; apply Z.eqb_neq in Hb; now rewrite Hb.
Qed.

Lemma mousePressed_reports_once_witness :
  handle_event (MOUSEBUTTONDOWN 3 (10, 20)%Z) (initial_state [] [])
  = (Returns tt, initial_state [] []).
Proof.
  apply (proj2 (proj2 (proj2 (proj2 (proj2
           (mousePressed_reports_once (initial_state [] []))))))).
  discriminate.
Defined.

Lemma nextKeyTyped_takes_last (s : State) (l : list string) (k : string) :
  _keysTyped s = (l ++ [k])%list ->
  nextKeyTyped s = (Returns k, Assign.keysTyped l s).
Proof.
  intro H. unfold nextKeyTyped, bind, read. now rewrite H, pop_last.
Qed.

Lemma nextKeyTyped_on_empty (s : State) :
  _keysTyped s = [] -> nextKeyTyped s = (Raises IndexError, s).
Proof. intro H. unfold nextKeyTyped, bind, read. now rewrite H. Qed.

Lemma next_keys_prefix (n : nat) :
  forall pending s,
    _keysTyped s = rev pending -> (n <= List.length pending)%nat ->
    exists s', next_keys n s = (Returns (firstn n pending), s') /\
               _keysTyped s' = rev (skipn n pending).
Proof.
  induction n as [| n IH]; intros pending s Hs Hn.
  - exists s. split; [reflexivity | exact Hs].
  - destruct pending as [| k pending]; [simpl in Hn; lia |].
    simpl in Hs.
    destruct (IH pending (Assign.keysTyped (rev pending) s) eq_refl
                ltac:(simpl in Hn; lia)) as (s' & H & Hk).
    exists s'. split; [| exact Hk].
    cbn [next_keys firstn].
    rewrite (bind_returns _ _ _ _ _ (nextKeyTyped_takes_last s _ k Hs)).
    now rewrite (bind_returns _ _ _ _ _ H).
Qed.

Lemma next_keys_too_many (n : nat) :
  forall pending s,
    _keysTyped s = rev pending -> (List.length pending < n)%nat ->
    fst (next_keys n s) = Raises IndexError /\
    _keysTyped (snd (next_keys n s)) = [].
Proof.
  induction n as [| n IH]; intros pending s Hs Hn; [lia |].
  destruct pending as [| k pending].
  - simpl in Hs. cbn [next_keys].
    rewrite (bind_raises _ _ _ _ _ (nextKeyTyped_on_empty s Hs)).
    now split.
  - simpl in Hs.
    destruct (IH pending (Assign.keysTyped (rev pending) s) eq_refl
                ltac:(simpl in Hn; lia)) as (H1 & H2).
    cbn [next_keys].
    rewrite (bind_returns _ _ _ _ _ (nextKeyTyped_takes_last s _ k Hs)).
    unfold bind.
    destruct (next_keys n (Assign.keysTyped (rev pending) s))
      as [[ks | e |] s'] eqn:E; simpl in H1, H2; try discriminate.
    injection H1 as ->. now split.
Qed.

(** X17. The key queue as a queue: with [pending] the keys typed and not
    yet taken, oldest first, newly typed keys go behind them, [n] calls of
    [nextKeyTyped()] return the [n] oldest and leave the rest, and asking
    for more keys than are pending ends in [IndexError] with the queue
    emptied. *)
Theorem key_queue_is_a_queue (s : State) (pending typed : list string) (n : nat) :
  _keysTyped s = rev pending ->
  (exists s1, handle_events (List.map KEYDOWN typed) s = (Returns tt, s1) /\
              _keysTyped s1 = rev (pending ++ typed)) /\
  ((n <= List.length pending)%nat ->
   exists s', next_keys n s = (Returns (firstn n pending), s') /\
              _keysTyped s' = rev (skipn n pending)) /\
  ((List.length pending < n)%nat ->
   fst (next_keys n s) = Raises IndexError /\
   _keysTyped (snd (next_keys n s)) = []).
Proof.
  intro Hs. split; [| split].
  - destruct (handle_events_keys typed s) as (s1 & H & Hk).
    exists s1. split; [exact H |].
    now rewrite Hk, Hs, rev_app_distr.
  - now apply next_keys_prefix.
  - now apply next_keys_too_many.
Qed.

Lemma key_queue_is_a_queue_witness :
  exists s', next_keys 2 (Assign.keysTyped ["c"; "b"; "a"]%string
                            (initial_state [] []))
             = (Returns ["a"; "b"]%string, s') /\
             _keysTyped s' = ["c"%string].
Proof.
  refine (proj1 (proj2 (key_queue_is_a_queue
            (Assign.keysTyped ["c"; "b"; "a"]%string (initial_state [] []))
            ["a"; "b"; "c"]%string [] 2 _)) _).
  - reflexivity.
  - simpl. lia.
Defined.

(** ** Configuring before the window exists *)

(** X18. The calls that set the scale, the pen and the font, and the key and
    mouse queries, never touch the toolkit: however they end, the log of
    toolkit calls, the window flag and the canvas size are as before.  So
    they can come before [set_canvas_size], unlike the drawing calls. *)
Theorem configuring_opens_no_window (fuel : nat) (op : Op) (s : State) :
  configures op = true ->
  pygame_log (snd (call fuel op s)) = pygame_log s /\
  _windowCreated (snd (call fuel op s)) = _windowCreated s /\
  _canvasWidth (snd (call fuel op s)) = _canvasWidth s /\
  _canvasHeight (snd (call fuel op s)) = _canvasHeight s /\
  pygame_events (snd (call fuel op s)) = pygame_events s.
Proof.
  intro H. destruct op; try discriminate H; unfold call, discard.
  - unfold set_xscale. destruct (Qle_bool (float max) (float min));
      repeat split.
  - unfold set_yscale. destruct (Qle_bool (float max) (float min));
      repeat split.
  - unfold set_pen_radius. destruct (Qltb (float r) 0); repeat split.
  - repeat split.
  - repeat split.
  - repeat split.
  - repeat split.
  - unfold nextKeyTyped, bind, read.
    destruct (pop (_keysTyped s)) as [[k rest] |]; repeat split.
  - unfold mousePressed, bind, read.
    destruct (_mousePressed s); repeat split.
  - unfold mouseX, _user_x, bind, read, number, div.
    destruct (_mousePos s); [| repeat split].
    destruct (_xmin s); [| repeat split].
    destruct (_xmax s); [| repeat split].
    destruct (Qeq_bool (_canvasWidth s) 0); repeat split.
  - unfold mouseY, _user_y, bind, read, number, div.
    destruct (_mousePos s); [| repeat split].
    destruct (_ymax s); [| repeat split].
    destruct (_ymin s); [| repeat split].
    destruct (Qeq_bool (_canvasHeight s) 0); repeat split.
Qed.

Lemma configuring_opens_no_window_witness :
  _windowCreated (snd (call 0 (call_set_xscale (-1) 1) (initial_state [] [])))
  = _windowCreated (initial_state [] []).
Proof.
  refine (proj1 (proj2 (configuring_opens_no_window 0 (call_set_xscale (-1) 1)
                          (initial_state [] []) _))).
  reflexivity.
Defined.

Example scale_then_canvas_size :
  fst (set_canvas_size 300 200
         (snd (set_xscale (-1) 1 (initial_state [] [])))) = Returns tt /\
  exists e,
    fst (set_canvas_size 300 200
           (snd (clear WHITE (initial_state [] [])))) = Raises e.
Proof. split; [reflexivity | eexists; reflexivity]. Qed.

(** ** Scale bounds and the edges of the canvas *)

(** X19. In exact arithmetic (the rationals of the model, without the
    rounding of the code's floats): after a successful
    [set_xscale(min, max)] on a canvas of positive width, [min] is the left
    edge of the canvas (pixel column 0) and [max] its right edge (the canvas
    width); after a successful [set_yscale(min, max)], [max] is the top
    row 0 and [min] the bottom. *)
Theorem set_scale_fixes_edges (s : State) (min max : Q) :
  min < max -> 0 < _canvasWidth s -> 0 < _canvasHeight s ->
  (exists p0 p1,
      _scale_x min (snd (set_xscale min max s))
      = (Returns p0, snd (set_xscale min max s)) /\
      _scale_x max (snd (set_xscale min max s))
      = (Returns p1, snd (set_xscale min max s)) /\
      p0 == 0 /\ p1 == _canvasWidth s) /\
  (exists q0 q1,
      _scale_y max (snd (set_yscale min max s))
      = (Returns q0, snd (set_yscale min max s)) /\
      _scale_y min (snd (set_yscale min max s))
      = (Returns q1, snd (set_yscale min max s)) /\
      q0 == 0 /\ q1 == _canvasHeight s).
Proof.
  intros Hlt HW HH.
  assert (E : Qle_bool (float max) (float min) = false)
    by (apply Qle_bool_gt; exact Hlt).
  assert (Hd : ~ max + _BORDER * (max - min) - (min - _BORDER * (max - min)) == 0)
    by (unfold _BORDER; lra).
  split.
  - unfold set_xscale. rewrite E. unfold float.
    set (s' := snd ((assign Assign.xmin (Some (min - _BORDER * (max - min))) ;;
                     assign Assign.xmax (Some (max + _BORDER * (max - min)))) s)).
    do 2 eexists.
    rewrite !(_scale_x_returns s' (min - _BORDER * (max - min))
                (max + _BORDER * (max - min)) _ eq_refl eq_refl Hd).
    split; [reflexivity |]. split; [reflexivity |].
    change (_canvasWidth s') with (_canvasWidth s).
    generalize (_canvasWidth s) as W. intro W.
    unfold _BORDER. split; field; lra.
  - unfold set_yscale. rewrite E. unfold float.
    set (s' := snd ((assign Assign.ymin (Some (min - _BORDER * (max - min))) ;;
                     assign Assign.ymax (Some (max + _BORDER * (max - min)))) s)).
    do 2 eexists.
    rewrite !(_scale_y_returns s' (min - _BORDER * (max - min))
                (max + _BORDER * (max - min)) _ eq_refl eq_refl Hd).
    split; [reflexivity |]. split; [reflexivity |].
    change (_canvasHeight s') with (_canvasHeight s).
    generalize (_canvasHeight s) as H. intro H.
    unfold _BORDER. split; field; lra.
Qed.

Lemma set_scale_fixes_edges_witness :
  exists p0 p1,
    _scale_x (-2) (snd (set_xscale (-2) 3 (initial_state [] [])))
    = (Returns p0, snd (set_xscale (-2) 3 (initial_state [] []))) /\
    _scale_x 3 (snd (set_xscale (-2) 3 (initial_state [] [])))
    = (Returns p1, snd (set_xscale (-2) 3 (initial_state [] []))) /\
    p0 == 0 /\ p1 == _canvasWidth (initial_state [] []).
Proof.
  refine (proj1 (set_scale_fixes_edges (initial_state [] []) (-2) 3 _ _ _));
    reflexivity.
Defined.

(** ** Clicks in user coordinates *)

(** X20. In exact arithmetic (the rationals of the model, without the
    rounding of the code's floats): in a reachable state where the last left
    click was at pixel [(px, py)] inside the canvas, [mouseX()] and
    [mouseY()] return a point within the scale bounds, and that point scales
    back to the clicked pixel: a shape drawn at [(mouseX(), mouseY())] is
    centred where the user clicked. *)
Theorem click_lands_where_clicked (s : State) (px py : Z) :
  reachable s ->
  _mousePos s = Some (px, py) ->
  0 <= inject_Z px <= _canvasWidth s ->
  0 <= inject_Z py <= _canvasHeight s ->
  exists a b c d x y p q,
    _xmin s = Some a /\ _xmax s = Some b /\
    _ymin s = Some c /\ _ymax s = Some d /\
    mouseX s = (Returns x, s) /\ mouseY s = (Returns y, s) /\
    a <= x <= b /\ c <= y <= d /\
    _scale_x x s = (Returns p, s) /\ _scale_y y s = (Returns q, s) /\
    p == inject_Z px /\ q == inject_Z py.
Proof.
  intros Hr Hm [Hx0 Hx1] [Hy0 Hy1].
  destruct (reachable_invariants s Hr)
    as (((a & b & Ha & Hb & Hab) & (c & d & Hc & Hd & Hcd) & _) & Hw & Hh).
  assert (Hw0 : ~ _canvasWidth s == 0) by lra.
  assert (Hh0 : ~ _canvasHeight s == 0) by lra.
  assert (Hab0 : ~ b - a == 0) by lra.
  assert (Hcd0 : ~ d - c == 0) by lra.
  exists a, b, c, d,
         (a + inject_Z px * (b - a) / _canvasWidth s),
         (d - inject_Z py * (d - c) / _canvasHeight s),
         (_canvasWidth s * (a + inject_Z px * (b - a) / _canvasWidth s - a)
          / (b - a)),
         (_canvasHeight s * (d - (d - inject_Z py * (d - c) / _canvasHeight s))
          / (d - c)).
  repeat (split; [assumption |]).
  split; [unfold mouseX, bind, read; rewrite Hm; now apply _user_x_returns |].
  split; [unfold mouseY, bind, read; rewrite Hm; now apply _user_y_returns |].
  revert Hx0 Hx1 Hy0 Hy1 Hw Hh Hw0 Hh0.
  generalize (inject_Z px) as u, (inject_Z py) as v.
  intros u v Hx0 Hx1 Hy0 Hy1 Hw Hh Hw0 Hh0.
  assert (Fx : 0 <= u * (b - a) / _canvasWidth s <= b - a).
  { split.
    - apply Qle_shift_div_l; [lra |]. rewrite Qmult_0_l.
      apply Qmult_le_0_compat; lra.
    - apply Qle_shift_div_r; [lra |]. rewrite (Qmult_comm (b - a)).
      apply Qmult_le_compat_r; lra. }
  assert (Fy : 0 <= v * (d - c) / _canvasHeight s <= d - c).
  { split.
    - apply Qle_shift_div_l; [lra |]. rewrite Qmult_0_l.
      apply Qmult_le_0_compat; lra.
    - apply Qle_shift_div_r; [lra |]. rewrite (Qmult_comm (d - c)).
      apply Qmult_le_compat_r; lra. }
  split; [lra |]. split; [lra |].
  split; [now apply _scale_x_returns |].
  split; [now apply _scale_y_returns |].
  revert Hw0 Hh0.
  generalize (_canvasWidth s) as W, (_canvasHeight s) as H.
  intros W H Hw0 Hh0.
  split; field; split; assumption.
Qed.

Lemma click_lands_where_clicked_witness :
  exists x y,
    mouseX (snd (call 0 (call_show (Some 0))
                   (initial_state [[MOUSEBUTTONDOWN 1 (128, 384)%Z]] [])))
    = (Returns x,
       snd (call 0 (call_show (Some 0))
              (initial_state [[MOUSEBUTTONDOWN 1 (128, 384)%Z]] []))) /\
    mouseY (snd (call 0 (call_show (Some 0))
                   (initial_state [[MOUSEBUTTONDOWN 1 (128, 384)%Z]] [])))
    = (Returns y,
       snd (call 0 (call_show (Some 0))
              (initial_state [[MOUSEBUTTONDOWN 1 (128, 384)%Z]] []))).
Proof.
  assert (R : reachable
                (snd (call 0 (call_show (Some 0))
                        (initial_state [[MOUSEBUTTONDOWN 1 (128, 384)%Z]] []))))
    by (apply reachable_call; apply reachable_init).
  assert (M : _mousePos
                (snd (call 0 (call_show (Some 0))
                        (initial_state [[MOUSEBUTTONDOWN 1 (128, 384)%Z]] [])))
              = Some (128, 384)%Z) by (vm_compute; reflexivity).
  assert (X : 0 <= inject_Z 128 <=
              _canvasWidth
                (snd (call 0 (call_show (Some 0))
                        (initial_state [[MOUSEBUTTONDOWN 1 (128, 384)%Z]] []))))
    by (split; vm_compute; discriminate).
  assert (Y : 0 <= inject_Z 384 <=
              _canvasHeight
                (snd (call 0 (call_show (Some 0))
                        (initial_state [[MOUSEBUTTONDOWN 1 (128, 384)%Z]] []))))
    by (split; vm_compute; discriminate).
  destruct (click_lands_where_clicked _ 128 384 R M X Y)
    as (a & b & c & d & x & y & p & q & _ & _ & _ & _ & Hx & Hy & _).
  exists x, y. exact (conj Hx Hy).
Defined.

(** * Where the code's floats part from exact arithmetic

    The functions of [IEEE], evaluated at arguments for which the rounding,
    the infinities or the NaN of binary64 arithmetic decide what the module
    does. *)

Section CodeFloats.
Import PrimFloat.
#[local] Set Warnings "-inexact-float".
#[local] Open Scope float_scope.

Example float_scale_x_rounds :
  fst (IEEE._scale_x 0.3
         (snd (IEEE.set_xscale (IEEE.PyFloat 0.1) (IEEE.PyFloat 0.3)
                 (snd (IEEE.set_canvas_size (IEEE.PyInt 200) (IEEE.PyInt 200)
                         IEEE.initial_state)))))
  = Returns 200.00000000000003.
Proof. vm_compute. reflexivity. Qed.

Example float_of_neighbouring_ints :
  IEEE.set_xscale (IEEE.PyInt (2 ^ 53)) (IEEE.PyInt (2 ^ 53 + 1))
                  IEEE.initial_state
  = (Raises (Exception "min must be less than max"), IEEE.initial_state) /\
  fst (IEEE.set_xscale (IEEE.PyInt 0) (IEEE.PyInt (2 ^ 1024))
                       IEEE.initial_state)
  = Raises OverflowError.
Proof. vm_compute. split; reflexivity. Qed.

Example float_pixel_column_out_of_range :
  fst (IEEE.filledCircle (IEEE.PyFloat 64) (IEEE.PyFloat 0.5)
                         (IEEE.PyFloat 0x1p-12) IEEE.initial_state)
  = Raises OverflowError /\
  fst (IEEE.filledCircle (IEEE.PyFloat 0.5) (IEEE.PyFloat 0.5)
                         (IEEE.PyFloat 0x1p-12) IEEE.initial_state)
  = Returns tt.
Proof. vm_compute. split; reflexivity. Qed.

(** C1. [set_xscale(-2.0**1023, 2.0**1023)] has [min < max] and returns
    without raising, but the bounds it stores are not [min] and [max]:
    [max - min] overflows to infinity, [_BORDER * size] is [0.0 * inf], a
    NaN, and [_xmin] and [_xmax] are both NaN.  [set_yscale] does the same
    to [_ymin] and [_ymax]. *)
Theorem set_scale_overflow_stores_nan :
  (-0x1p+1023 <? 0x1p+1023) = true /\
  (let s := snd (IEEE.set_xscale (IEEE.PyFloat (-0x1p+1023))
                                 (IEEE.PyFloat 0x1p+1023) IEEE.initial_state) in
   fst (IEEE.set_xscale (IEEE.PyFloat (-0x1p+1023)) (IEEE.PyFloat 0x1p+1023)
                        IEEE.initial_state) = Returns tt /\
   IEEE._xmin s = Some nan /\ IEEE._xmax s = Some nan) /\
  (let s := snd (IEEE.set_yscale (IEEE.PyFloat (-0x1p+1023))
                                 (IEEE.PyFloat 0x1p+1023) IEEE.initial_state) in
   fst (IEEE.set_yscale (IEEE.PyFloat (-0x1p+1023)) (IEEE.PyFloat 0x1p+1023)
                        IEEE.initial_state) = Returns tt /\
   IEEE._ymin s = Some nan /\ IEEE._ymax s = Some nan).
Proof. vm_compute. repeat split. Qed.

(** C6. The range invariants hold after the initialisation of the module,
    and two calls of the public interface that return without raising break
    them: [set_pen_radius(float('nan'))], whose guard [r < 0.0] is false for
    a NaN, leaves [_pen_radius] a NaN, for which [_pen_radius >= 0] is
    false; [set_yscale(-2.0**1023, 2.0**1023)] leaves [_ymin] and [_ymax]
    NaN, for which [_ymin < _ymax] is false. *)
Theorem range_invariants_break :
  IEEE.range_invariants IEEE.initial_state = true /\
  (let s := snd (IEEE.set_pen_radius (IEEE.PyFloat nan) IEEE.initial_state) in
   fst (IEEE.set_pen_radius (IEEE.PyFloat nan) IEEE.initial_state)
   = Returns tt /\
   IEEE._pen_radius s = Some nan /\ IEEE.range_invariants s = false) /\
  (let s := snd (IEEE.set_yscale (IEEE.PyFloat (-0x1p+1023))
                                 (IEEE.PyFloat 0x1p+1023) IEEE.initial_state) in
   IEEE.range_invariants s = false).
Proof. vm_compute. repeat split. Qed.

Lemma float_bind_returns {A B} (m : IEEE.M A) (k : A -> IEEE.M B) s a s' :
  m s = (Returns a, s') -> IEEE.bind m k s = k a s'.
Proof. intro H. unfold IEEE.bind. now rewrite H. Qed.

Lemma float_thick_line_halves fuel x0 y0 x1 y1 r s xs0 ys0 xs1 ys1 :
  IEEE._scale_x x0 s = (Returns xs0, s) ->
  IEEE._scale_y y0 s = (Returns ys0, s) ->
  IEEE._scale_x x1 s = (Returns xs1, s) ->
  IEEE._scale_y y1 s = (Returns ys1, s) ->
  (abs (xs0 - xs1) <? 1) && (abs (ys0 - ys1) <? 1) = false ->
  IEEE._thick_line (S fuel) x0 y0 x1 y1 r s
  = IEEE.bind (IEEE._thick_line fuel x0 y0 ((x0 + x1) / 2) ((y0 + y1) / 2) r)
      (fun _ => IEEE._thick_line fuel ((x0 + x1) / 2) ((y0 + y1) / 2) x1 y1 r)
      s.
Proof.
  intros H1 H2 H3 H4 Hc. cbn [IEEE._thick_line].
  rewrite (float_bind_returns _ _ _ _ _ H1), (float_bind_returns _ _ _ _ _ H2),
          (float_bind_returns _ _ _ _ _ H3), (float_bind_returns _ _ _ _ _ H4).
  now rewrite Hc.
Qed.

Lemma float_thick_line_bottom fuel x0 y0 x1 y1 r s xs0 ys0 xs1 ys1 :
  IEEE._scale_x x0 s = (Returns xs0, s) ->
  IEEE._scale_y y0 s = (Returns ys0, s) ->
  IEEE._scale_x x1 s = (Returns xs1, s) ->
  IEEE._scale_y y1 s = (Returns ys1, s) ->
  (abs (xs0 - xs1) <? 1) && (abs (ys0 - ys1) <? 1) = true ->
  IEEE._thick_line fuel x0 y0 x1 y1 r s
  = IEEE.filledCircle (IEEE.PyFloat x0) (IEEE.PyFloat y0) (IEEE.PyFloat r) s.
Proof.
  intros H1 H2 H3 H4 Hc. destruct fuel; cbn [IEEE._thick_line];
    rewrite (float_bind_returns _ _ _ _ _ H1), (float_bind_returns _ _ _ _ _ H2),
            (float_bind_returns _ _ _ _ _ H3), (float_bind_returns _ _ _ _ _ H4);
    now rewrite Hc.
Qed.

Lemma thick_line_stuck (fuel : nat) :
  forall calls,
    fst (IEEE._thick_line fuel 0x1p+44 0.5 (0x1p+44 + 0x1p-8) 0.5
           (0x1.47ae147ae147bp+1 / 512)
           (IEEE.Assign.log calls
              (snd (IEEE._make_sure_window_created
                      (snd (IEEE.set_xscale (IEEE.PyFloat 0x1p+44)
                                            (IEEE.PyFloat (0x1p+44 + 1))
                                            IEEE.initial_state))))))
    = OutOfFuel.
Proof.
  set (s1 := snd (IEEE._make_sure_window_created _)).
  induction fuel as [| fuel IH]; intro calls; [reflexivity |].
  rewrite (float_thick_line_halves fuel 0x1p+44 0.5 (0x1p+44 + 0x1p-8) 0.5 _
             (IEEE.Assign.log calls s1) 0 256 2 256);
    try reflexivity.
  change ((0x1p+44 + (0x1p+44 + 0x1p-8)) / 2) with 0x1p+44.
  change ((0.5 + 0.5) / 2) with 0.5.
  rewrite (float_bind_returns _ _ _ tt
             (IEEE.Assign.log
                (calls ++ [IEEE.draw_ellipse (pygame_Color_rgb 0 0 0)
                             (0 - 0x1.47ae147ae147bp+2 / 2,
                              256 - 0x1.47ae147ae147bp+2 / 2,
                              0x1.47ae147ae147bp+2, 0x1.47ae147ae147bp+2)
                             0])%list s1)).
  - apply IH.
  - rewrite (float_thick_line_bottom fuel 0x1p+44 0.5 0x1p+44 0.5 _
               (IEEE.Assign.log calls s1) 0 256 0 256);
      reflexivity.
Qed.

(** C7. After [set_xscale(2.0**44, 2.0**44 + 1)] the scale bounds are valid
    and the canvas is 512 pixels wide; [x0 = 2.0**44] and
    [x1 = x0 + 2.0**-8] are neighbouring floats two pixels apart, their
    midpoint [(x0 + x1) / 2] is [x0] again, and
    [line(x0, 0.5, x1, 0.5)] with the default pen, which draws through
    [_thick_line], does not end within any depth of recursion: every level
    draws a circle at [x0] and calls itself on the same segment. *)
Theorem thick_line_never_ends (fuel : nat) :
  let s := snd (IEEE.set_xscale (IEEE.PyFloat 0x1p+44)
                                (IEEE.PyFloat (0x1p+44 + 1))
                                IEEE.initial_state) in
  IEEE.range_invariants s = true /\
  fst (IEEE.line fuel (IEEE.PyFloat 0x1p+44) (IEEE.PyFloat 0.5)
                 (IEEE.PyFloat (0x1p+44 + 0x1p-8)) (IEEE.PyFloat 0.5) s)
  = OutOfFuel.
Proof.
  split; [reflexivity |].
  rewrite <- (thick_line_stuck fuel
                (IEEE.pygame_log
                   (snd (IEEE._make_sure_window_created
                           (snd (IEEE.set_xscale (IEEE.PyFloat 0x1p+44)
                                                 (IEEE.PyFloat (0x1p+44 + 1))
                                                 IEEE.initial_state)))))).
  unfold IEEE.line. generalize (IEEE._thick_line fuel). intro thick.
  vm_compute. reflexivity.
Qed.

End CodeFloats.
